(** * Guitar practice TUI: the session editor, the practice timer and the
    focus dispatcher, embedded in Rocq.

    Sources: [src/src/notion/types.ts], [src/src/notion/client.ts],
    [src/unnamed/part_002] (the [useSessionEditor] hook),
    [src/unnamed/part_006] (UI types), [src/unnamed/part_001] (library and
    search key handlers), [src/src/components/*.tsx] and the second [App]
    of [src/src/app.tsx].

    JavaScript numbers are modelled as [Z] where the program only ever
    holds integers there (minutes typed by the user, [Date.now()],
    indices) and as [Q] where a decimal can appear (actual minutes,
    accumulated milliseconds).  Arithmetic on [Q] is exact, where the
    program rounds every step to a double: results that depend on the
    last bits of such a value (for instance [actualMinutes * 60 * 1000]
    read back as milliseconds, or [Math.round] of a product near a half)
    are not claimed here.  [undefined]/[null] fields are [option]s.
    A remote call is recorded as a [StoreCall] in the order the code
    awaits it; the list of calls of an operation is the sequence it issues
    when every call resolves. *)

From Stdlib Require Import ZArith QArith List String Ascii Bool Lia.
Import ListNotations.

Open Scope Z_scope.

(* ------------------------------------------------------------------ *)
(** ** JavaScript helpers *)

(** Truthiness of a [string | undefined] value: the empty string is falsy. *)
Definition truthy_str (o : option string) : bool :=
  match o with
  | Some s => negb (String.eqb s "")
  | None => false
  end.

(** [===] on two [string | undefined] values. *)
Definition opt_str_eqb (a b : option string) : bool :=
  match a, b with
  | Some x, Some y => String.eqb x y
  | None, None => true
  | _, _ => false
  end.

(** [Array.prototype.findIndex]: [-1] when nothing matches. *)
Fixpoint findIndex {A} (p : A -> bool) (l : list A) : Z :=
  match l with
  | [] => -1
  | x :: r => if p x then 0 else
      let k := findIndex p r in if k <? 0 then -1 else k + 1
  end.

(** Array read [a[i]]: [undefined] outside [0 .. length - 1]. *)
Definition js_get {A} (l : list A) (i : Z) : option A :=
  if i <? 0 then None else nth_error l (Z.to_nat i).

(* ------------------------------------------------------------------ *)
(** ** Data model ([notion/types.ts]) *)

Inductive ItemType := Song | Exercise | CourseLesson.
Inductive Frequency := Daily | Weekly | Monthly.

(** [PracticeLibraryItem]; the fields are prefixed with [li_]
    ([id] is [li_id], [name] is [li_name], ...). *)
Record PracticeLibraryItem := {
  li_id : string;
  li_name : string;
  li_type : option ItemType;
  li_artist : option string;
  li_tags : list string;
  li_frequency : list Frequency;
  li_current : bool;
  li_lastPracticed : option string;
  li_timesPracticed : option Z
}.

(** [PracticeLog] as returned by [fetchPracticeLogsBySession]. *)
Record PracticeLog := {
  pl_id : string;
  pl_name : string;
  pl_itemId : string;
  pl_sessionId : string;
  pl_plannedTime : option Z;
  pl_actualTime : option Q
}.

(** [SelectedItem] (with the [actualMinutes] field of the hook's version). *)
Record SelectedItem := {
  item : PracticeLibraryItem;
  plannedMinutes : Z;
  actualMinutes : option Q;
  logId : option string
}.

(** The object passed to [createPracticeLog]; [nl_order] is the optional
    [order] property ([None] when the call site passes none). *)
Record NewPracticeLog := {
  nl_name : string;
  nl_itemId : string;
  nl_sessionId : string;
  nl_plannedTime : Z;
  nl_order : option Z
}.

(** The [updates] object passed to [updatePracticeLog]. *)
Record LogUpdates := {
  up_plannedTime : option Z;
  up_order : option Z;
  up_actualTime : option Q
}.

(** Remote calls of the Notion client, reads included. *)
Inductive StoreCall :=
| CreateSession (name date : string)
| CreateLog (log : NewPracticeLog)
| UpdateLog (logId : string) (u : LogUpdates)
| DeleteLog (logId : string)
| FetchSessions
| FetchLogs (sessionId : string).

Definition is_write (c : StoreCall) : bool :=
  match c with
  | CreateSession _ _ | CreateLog _ | UpdateLog _ _ | DeleteLog _ => true
  | FetchSessions | FetchLogs _ => false
  end.

Definition is_create_log (c : StoreCall) : bool :=
  match c with CreateLog _ => true | _ => false end.

Definition is_delete (c : StoreCall) : bool :=
  match c with DeleteLog _ => true | _ => false end.

Definition is_delete_of (s : string) (c : StoreCall) : bool :=
  match c with DeleteLog t => String.eqb t s | _ => false end.

Definition is_update_of (s : string) (c : StoreCall) : bool :=
  match c with UpdateLog t _ => String.eqb t s | _ => false end.

(* ------------------------------------------------------------------ *)
(** ** Notion client ([notion/client.ts]) *)

(** Property values written by [notion.pages.create]. *)
Inductive PropValue :=
| PTitle (s : string)
| PRelation (id : string)
| PNumber (n : Z).

(** The page properties [createPracticeLog] sends: the [order] of its
    argument is not among them. *)
Definition createPracticeLog_properties (log : NewPracticeLog)
  : list (string * PropValue) :=
  [("Name", PTitle log.(nl_name));
   ("Item", PRelation log.(nl_itemId));
   ("Session", PRelation log.(nl_sessionId));
   ("Planned Time (min)", PNumber log.(nl_plannedTime))]%string.

(** [createFullSession(sessionName, date, items)]: the session is created
    first, its id [sid] is the store's answer; then one
    [createPracticeLog] per item, in order, with no [order] property. *)
Definition createFullSession (sessionName date : string)
    (items : list SelectedItem) (sid : string) : list StoreCall :=
  CreateSession sessionName date ::
  map (fun it =>
         CreateLog {| nl_name := it.(item).(li_name);
                      nl_itemId := it.(item).(li_id);
                      nl_sessionId := sid;
                      nl_plannedTime := it.(plannedMinutes);
                      nl_order := None |}) items.

(* ------------------------------------------------------------------ *)
(** ** The session editor ([useSessionEditor], part_002) *)

Record EditorState := {
  selectedItems : list SelectedItem;
  originalItems : list SelectedItem;
  activeSessionId : option string;
  sessionCursorIndex : Z;
  selectedPanelIndex : Z;
  isEditingTime : bool;
  timeInputValue : string
}.

Definition set_items (st : EditorState) (l : list SelectedItem) : EditorState :=
  {| selectedItems := l; originalItems := st.(originalItems);
     activeSessionId := st.(activeSessionId);
     sessionCursorIndex := st.(sessionCursorIndex);
     selectedPanelIndex := st.(selectedPanelIndex);
     isEditingTime := st.(isEditingTime);
     timeInputValue := st.(timeInputValue) |}.

(** [log.plannedTime || 5]. *)
Definition planned_or_default (p : option Z) : Z :=
  match p with
  | Some z => if z =? 0 then 5 else z
  | None => 5
  end.

(** [library.find((item) => item.id === log.itemId)]. *)
Definition find_library_item (library : list PracticeLibraryItem)
    (log : PracticeLog) : option PracticeLibraryItem :=
  find (fun it => String.eqb it.(li_id) log.(pl_itemId)) library.

(** The [for (const log of logs)] loop of [loadSessionLogs]. *)
Fixpoint build_items (library : list PracticeLibraryItem)
    (logs : list PracticeLog) : list SelectedItem :=
  match logs with
  | [] => []
  | log :: rest =>
      match find_library_item library log with
      | Some li =>
          {| item := li;
             plannedMinutes := planned_or_default log.(pl_plannedTime);
             actualMinutes := log.(pl_actualTime);
             logId := Some log.(pl_id) |} :: build_items library rest
      | None => build_items library rest
      end
  end.

(** [loadSessionLogs(sessionId, library)] once [fetchPracticeLogsBySession]
    has answered [logs].  [JSON.parse(JSON.stringify(items))] yields a
    structurally equal copy (the records hold strings, finite numbers,
    booleans, arrays and [null]/[undefined] only); values are immutable
    here, so the copy is the list itself. *)
Definition loadSessionLogs (st : EditorState) (logs : list PracticeLog)
    (library : list PracticeLibraryItem) : EditorState :=
  let items := build_items library logs in
  {| selectedItems := items; originalItems := items;
     activeSessionId := st.(activeSessionId);
     sessionCursorIndex := st.(sessionCursorIndex);
     selectedPanelIndex := 0;
     isEditingTime := st.(isEditingTime);
     timeInputValue := st.(timeInputValue) |}.

(** [toggleItem(item)]. *)
Definition toggleItem (current : list SelectedItem) (x : PracticeLibraryItem)
  : list SelectedItem :=
  if existsb (fun s => String.eqb s.(item).(li_id) x.(li_id)) current
  then filter (fun s => negb (String.eqb s.(item).(li_id) x.(li_id))) current
  else current ++ [{| item := x; plannedMinutes := 5;
                      actualMinutes := None; logId := None |}].

(** The [current.filter((_, i) => i !== index)] of [removeItem]. *)
Fixpoint remove_at {A} (l : list A) (index : Z) : list A :=
  match l with
  | [] => []
  | x :: r => if index =? 0 then remove_at r (index - 1)
              else x :: remove_at r (index - 1)
  end.

(** [removeItem(index)]: the cursor update reads the length of the
    working set of the render the callback was created in. *)
Definition removeItem (st : EditorState) (index : Z) : EditorState :=
  {| selectedItems := remove_at st.(selectedItems) index;
     originalItems := st.(originalItems);
     activeSessionId := st.(activeSessionId);
     sessionCursorIndex := st.(sessionCursorIndex);
     selectedPanelIndex :=
       Z.max 0 (Z.min st.(selectedPanelIndex)
                      (Z.of_nat (List.length st.(selectedItems)) - 2));
     isEditingTime := st.(isEditingTime);
     timeInputValue := st.(timeInputValue) |}.

(** The string held by a [logId] / [activeSessionId] already known to be
    truthy. *)
Definition ref_of (o : option string) : string :=
  match o with Some s => s | None => ""%string end.

(** One iteration of the [for (let i = 0; ...)] loop of the edit branch of
    [saveSession]: an entry with a log id is compared with the baseline
    entry found by [findIndex]; an entry without one is created. *)
Definition save_item (originalItems : list SelectedItem) (sid : string)
    (i : Z) (it : SelectedItem) : list StoreCall :=
  if truthy_str it.(logId) then
    let originalIndex :=
      findIndex (fun o => opt_str_eqb o.(logId) it.(logId)) originalItems in
    let timeChanged :=
      match js_get originalItems originalIndex with
      | Some original => negb (original.(plannedMinutes) =? it.(plannedMinutes))
      | None => false
      end in
    let orderChanged := negb (originalIndex =? i) in
    if timeChanged || orderChanged then
      [UpdateLog (ref_of it.(logId))
         {| up_plannedTime := if timeChanged then Some it.(plannedMinutes) else None;
            up_order := if orderChanged then Some i else None;
            up_actualTime := None |}]
    else []
  else
    [CreateLog {| nl_name := it.(item).(li_name);
                  nl_itemId := it.(item).(li_id);
                  nl_sessionId := sid;
                  nl_plannedTime := it.(plannedMinutes);
                  nl_order := Some i |}].

Fixpoint save_items (originalItems : list SelectedItem) (sid : string)
    (i : Z) (items : list SelectedItem) : list StoreCall :=
  match items with
  | [] => []
  | it :: rest => save_item originalItems sid i it
                  ++ save_items originalItems sid (i + 1) rest
  end.

(** [currentIds]: the truthy log ids of the working set. *)
Definition currentIds (selected : list SelectedItem) : list string :=
  map (fun i => ref_of i.(logId)) (filter (fun i => truthy_str i.(logId)) selected).

Definition mem_str (s : string) (l : list string) : bool :=
  existsb (String.eqb s) l.

(** The [for (const orig of originalItems)] deletion loop. *)
Definition delete_removed (originalItems : list SelectedItem)
    (cur : list string) : list StoreCall :=
  flat_map (fun orig =>
              if truthy_str orig.(logId) && negb (mem_str (ref_of orig.(logId)) cur)
              then [DeleteLog (ref_of orig.(logId))] else []) originalItems.

(** The writes of the edit branch of [saveSession]. *)
Definition save_edit (selected originalItems : list SelectedItem)
    (sid : string) : list StoreCall :=
  delete_removed originalItems (currentIds selected)
  ++ save_items originalItems sid 0 selected.

Definition set_active (st : EditorState) (sid : string) : EditorState :=
  {| selectedItems := st.(selectedItems); originalItems := st.(originalItems);
     activeSessionId := Some sid;
     sessionCursorIndex := 1;
     selectedPanelIndex := st.(selectedPanelIndex);
     isEditingTime := st.(isEditingTime);
     timeInputValue := st.(timeInputValue) |}.

(** [saveSession]: [today] is the date string, [newSessionId] the id the
    store gives the created session, [fetched] the logs the store returns
    on the final [fetchPracticeLogsBySession].  Returns the calls issued and
    the editor state afterwards. *)
Definition saveSession (st : EditorState) (today newSessionId : string)
    (fetched : list PracticeLog) (library : list PracticeLibraryItem)
  : list StoreCall * EditorState :=
  if (List.length st.(selectedItems) =? 0)%nat && negb (truthy_str st.(activeSessionId))
  then ([], st)
  else if truthy_str st.(activeSessionId) then
    let sid := ref_of st.(activeSessionId) in
    (save_edit st.(selectedItems) st.(originalItems) sid
       ++ [FetchSessions; FetchLogs sid],
     loadSessionLogs st fetched library)
  else
    (createFullSession "Practice" today st.(selectedItems) newSessionId
       ++ [FetchSessions; FetchLogs newSessionId],
     loadSessionLogs (set_active st newSessionId) fetched library).

(* ------------------------------------------------------------------ *)
(** ** Exact-duration input ([startTimeEdit], [appendTimeDigit],
    [backspaceTimeDigit], [confirmTimeEdit]) *)

Definition is_digit (c : ascii) : bool :=
  let n := nat_of_ascii c in ((48 <=? n) && (n <=? 57))%nat.

(** [/^[0-9]$/.test(digit)]. *)
Definition digit_regex (d : string) : bool :=
  match d with
  | String c EmptyString => is_digit c
  | _ => false
  end.

Definition with_time_edit (st : EditorState) (editing : bool) (v : string)
  : EditorState :=
  {| selectedItems := st.(selectedItems); originalItems := st.(originalItems);
     activeSessionId := st.(activeSessionId);
     sessionCursorIndex := st.(sessionCursorIndex);
     selectedPanelIndex := st.(selectedPanelIndex);
     isEditingTime := editing; timeInputValue := v |}.

Definition startTimeEdit (st : EditorState) : EditorState :=
  if (List.length st.(selectedItems) =? 0)%nat then st
  else with_time_edit st true ""%string.

Definition appendTimeDigit (st : EditorState) (digit : string) : EditorState :=
  if negb (digit_regex digit) then st
  else if (3 <=? String.length st.(timeInputValue))%nat then st
  else with_time_edit st st.(isEditingTime) (st.(timeInputValue) ++ digit)%string.

(** [v.slice(0, -1)]. *)
Definition drop_last (v : string) : string :=
  substring 0 (String.length v - 1) v.

Definition backspaceTimeDigit (st : EditorState) : EditorState :=
  with_time_edit st st.(isEditingTime) (drop_last st.(timeInputValue)).

(** [parseInt(s, 10)]: leading white space, an optional sign, then the
    longest run of decimal digits; [None] is [NaN]. *)
Definition is_ws (c : ascii) : bool :=
  let n := nat_of_ascii c in
  ((n =? 32) || (n =? 9) || (n =? 10) || (n =? 11) || (n =? 12) || (n =? 13))%nat.

Fixpoint trim_start (s : string) : string :=
  match s with
  | String c r => if is_ws c then trim_start r else s
  | EmptyString => EmptyString
  end.

Definition digit_value (c : ascii) : Z := Z.of_nat (nat_of_ascii c) - 48.

Fixpoint digits_value (s : string) (acc : option Z) : option Z :=
  match s with
  | EmptyString => acc
  | String c r =>
      if is_digit c
      then digits_value r (Some (10 * match acc with Some a => a | None => 0 end
                                 + digit_value c))
      else acc
  end.

Definition parseInt10 (s : string) : option Z :=
  match trim_start s with
  | String c r =>
      if Ascii.eqb c "-"%char then option_map Z.opp (digits_value r None)
      else if Ascii.eqb c "+"%char then digits_value r None
      else digits_value (String c r) None
  | EmptyString => None
  end.

(** [newItems[index] = { ...newItems[index], plannedMinutes: m }] guarded by
    [if (!current[index]) return current]. *)
Fixpoint set_planned_nat (l : list SelectedItem) (n : nat) (m : Z)
  : list SelectedItem :=
  match l, n with
  | [], _ => []
  | x :: r, O => {| item := x.(item); plannedMinutes := m;
                    actualMinutes := x.(actualMinutes); logId := x.(logId) |} :: r
  | x :: r, S n' => x :: set_planned_nat r n' m
  end.

Definition set_planned (l : list SelectedItem) (index : Z) (m : Z)
  : list SelectedItem :=
  match js_get l index with
  | None => l
  | Some _ => set_planned_nat l (Z.to_nat index) m
  end.

Definition confirmTimeEdit (st : EditorState) : EditorState :=
  let st1 :=
    match parseInt10 st.(timeInputValue) with
    | Some minutes =>
        if 1 <=? minutes
        then set_items st (set_planned st.(selectedItems) st.(selectedPanelIndex) minutes)
        else st
    | None => st
    end in
  with_time_edit st1 false ""%string.

(* ------------------------------------------------------------------ *)
(** ** [moveItem] on JavaScript arrays *)

Inductive Direction := Up | Down.

(** Array write [a[i] = v]: a negative [i] sets a property, not an element;
    a write past the end leaves holes ([None]) before [v]. *)
Definition js_set {A} (l : list (option A)) (i : Z) (v : option A)
  : list (option A) :=
  if i <? 0 then l
  else
    let n := Z.to_nat i in
    if (n <? List.length l)%nat then firstn n l ++ v :: skipn (S n) l
    else l ++ repeat None (n - List.length l) ++ [v].

(** Array read of a possibly sparse array. *)
Definition js_read {A} (l : list (option A)) (i : Z) : option A :=
  match js_get l i with Some v => v | None => None end.

Definition neighbour (index : Z) (d : Direction) : Z :=
  match d with Up => index - 1 | Down => index + 1 end.

(** The [setSelectedItems] updater of [moveItem]: the array after the
    destructuring swap [[a[index], a[newIndex]] = [a[newIndex], a[index]]]. *)
Definition moveItem_items (current : list SelectedItem) (index : Z)
    (direction : Direction) : list (option SelectedItem) :=
  let arr := map Some current in
  let newIndex := neighbour index direction in
  if (newIndex <? 0) || (Z.of_nat (List.length current) <=? newIndex) then arr
  else
    let a := js_read arr newIndex in
    let b := js_read arr index in
    js_set (js_set arr index a) newIndex b.

(** The [setSelectedPanelIndex] updater of [moveItem]. *)
Definition moveItem_cursor (len : nat) (i : Z) (direction : Direction) : Z :=
  let newIndex := neighbour i direction in
  if (newIndex <? 0) || (Z.of_nat len <=? newIndex) then i else newIndex.

(** [moveItem(index, direction)]: the new working set and cursor. *)
Definition moveItem (st : EditorState) (index : Z) (direction : Direction)
  : list (option SelectedItem) * Z :=
  (moveItem_items st.(selectedItems) index direction,
   moveItem_cursor (List.length st.(selectedItems)) st.(selectedPanelIndex) direction).

(* ------------------------------------------------------------------ *)
(** ** Practice timer ([App]: [startPractice], [togglePausePractice],
    [requestStopPractice], [confirmSavePractice], [cancelPractice]) *)

Inductive AppState := Loading | Browse | Creating | Saving | Error | Practicing.

Record PracticeState := {
  itemIndex : Z;
  startTime : Z;
  accumulatedMs : Q;
  isPaused : bool;
  isConfirming : bool
}.

Record AppModel := {
  editor : EditorState;
  practiceState : option PracticeState;
  appState : AppState
}.

(** [item?.actualMinutes ? item.actualMinutes * 60 * 1000 : 0], in exact
    rational arithmetic (the program's double product may differ from it
    in the last bits). *)
Definition existing_ms (it : option SelectedItem) : Q :=
  match it with
  | Some i =>
      match i.(actualMinutes) with
      | Some m => if Qeq_bool m 0 then 0%Q else (m * 60 * 1000)%Q
      | None => 0%Q
      end
  | None => 0%Q
  end.

Definition startPractice (m : AppModel) (idx : Z) (now : Z) : AppModel :=
  {| editor := m.(editor);
     practiceState := Some {| itemIndex := idx; startTime := now;
                              accumulatedMs := existing_ms (js_get m.(editor).(selectedItems) idx);
                              isPaused := false; isConfirming := false |};
     appState := Practicing |}.

Definition togglePause (p : PracticeState) (now : Z) : PracticeState :=
  if p.(isPaused) then
    {| itemIndex := p.(itemIndex); startTime := now;
       accumulatedMs := p.(accumulatedMs); isPaused := false;
       isConfirming := p.(isConfirming) |}
  else
    {| itemIndex := p.(itemIndex); startTime := p.(startTime);
       accumulatedMs := (p.(accumulatedMs) + inject_Z (now - p.(startTime)))%Q;
       isPaused := true; isConfirming := p.(isConfirming) |}.

Definition togglePausePractice (m : AppModel) (now : Z) : AppModel :=
  match m.(practiceState) with
  | None => m
  | Some p => {| editor := m.(editor); practiceState := Some (togglePause p now);
                 appState := m.(appState) |}
  end.

Definition cancelPractice (m : AppModel) : AppModel :=
  {| editor := m.(editor); practiceState := None; appState := Browse |}.

(** The display of [PracticeMode]: refreshed every 100 ms from the
    practice state; it is component-local and never written back. *)
Definition display_ms (p : PracticeState) (now : Z) : Q :=
  if p.(isPaused) then p.(accumulatedMs)
  else (p.(accumulatedMs) + inject_Z (now - p.(startTime)))%Q.

(** Events reaching the timer: a space key while practising (not
    confirming) runs [togglePausePractice]; a display tick only recomputes
    the display. *)
Inductive TimerEvent := Toggle (now : Z) | Tick (now : Z).

Definition timer_step (s : AppModel * Q) (e : TimerEvent) : AppModel * Q :=
  let (m, disp) := s in
  match e with
  | Toggle now => (togglePausePractice m now, disp)
  | Tick now =>
      match m.(practiceState) with
      | Some p => (m, display_ms p now)
      | None => (m, disp)
      end
  end.

Definition run_timer (s : AppModel * Q) (es : list TimerEvent) : AppModel * Q :=
  fold_left timer_step es s.

(** [confirmSavePractice]: [update_ok] is whether [updatePracticeLog]
    resolves, [fetched] the logs of the reload. *)
Definition confirmSavePractice (m : AppModel) (update_ok : bool)
    (fetched : list PracticeLog) (library : list PracticeLibraryItem)
  : list StoreCall * AppModel :=
  match m.(practiceState) with
  | None => ([], m)
  | Some p =>
      match js_get m.(editor).(selectedItems) p.(itemIndex) with
      | Some it =>
          if truthy_str it.(logId) then
            let actual := (p.(accumulatedMs) / inject_Z 60000)%Q in
            let upd := UpdateLog (ref_of it.(logId))
                         {| up_plannedTime := None; up_order := None;
                            up_actualTime := Some actual |} in
            if update_ok then
              if truthy_str m.(editor).(activeSessionId) then
                ([upd; FetchLogs (ref_of m.(editor).(activeSessionId))],
                 {| editor := loadSessionLogs m.(editor) fetched library;
                    practiceState := None; appState := Browse |})
              else
                ([upd], {| editor := m.(editor); practiceState := None;
                           appState := Browse |})
            else
              ([upd], {| editor := m.(editor); practiceState := None;
                         appState := Error |})
          else ([], cancelPractice m)
      | None => ([], cancelPractice m)
      end
  end.

(* ------------------------------------------------------------------ *)
(** ** Focus dispatcher (the [useKeyboard] callback of [App] in browse) *)

Inductive FocusArea := FSearch | FList | FSessionPicker | FSelected.

Definition focus_eqb (a b : FocusArea) : bool :=
  match a, b with
  | FSearch, FSearch | FList, FList | FSessionPicker, FSessionPicker
  | FSelected, FSelected => true
  | _, _ => false
  end.

Record KeyEvent := { kname : string; kctrl : bool; kshift : bool }.

Definition key_is (k : KeyEvent) (s : string) : bool := String.eqb k.(kname) s.

(** Focus changes made by [createLibraryKeyHandler]: only ["/"]. *)
Definition library_focus (k : KeyEvent) : FocusArea :=
  if (k.(kctrl) && (key_is k "f" || key_is k "b"))%string then FList
  else if key_is k "/" then FSearch else FList.

(** [createSearchKeyHandler] handles Ctrl+w only and never moves focus. *)
Definition search_handled (k : KeyEvent) : bool := k.(kctrl) && key_is k "w".

(** Focus changes made by [createSessionPickerKeyHandler] ([onClose]). *)
Definition picker_focus (k : KeyEvent) : FocusArea :=
  if (key_is k "space" || key_is k "return" || key_is k "escape")%string
  then FList else FSessionPicker.

(** The focus after one key in browse (lines 792-870 of [app.tsx]);
    [nSelected] is [selectedItems.length]. *)
Definition dispatch_focus (focus : FocusArea) (nSelected : nat) (k : KeyEvent)
  : FocusArea :=
  let notPicker := negb (focus_eqb focus FSessionPicker) in
  let notSearch := negb (focus_eqb focus FSearch) in
  if key_is k "tab" && notPicker then
    match focus with
    | FList => if (0 <? nSelected)%nat then FSelected else FSearch
    | FSelected => FSearch
    | _ => FList
    end
  else if key_is k "escape" && negb notPicker then FList
  else if key_is k "escape" && notSearch then FList
  else if key_is k "e" && notSearch && notPicker then FSessionPicker
  else if key_is k "s" && notSearch && notPicker then focus
  else if key_is k "r" && notSearch && notPicker then focus
  else if k.(kctrl) && key_is k "h" && notPicker then
    match focus with FSelected => FList | f => f end
  else if k.(kctrl) && key_is k "l" && notPicker then
    match focus with
    | FList | FSearch => if (0 <? nSelected)%nat then FSelected else focus
    | f => f
    end
  else if k.(kctrl) && key_is k "k" && notPicker then FSearch
  else if k.(kctrl) && key_is k "j" && negb notSearch then FList
  else
    match focus with
    | FList => library_focus k
    | FSearch => FSearch
    | FSessionPicker => picker_focus k
    | FSelected => FSelected
    end.

(* ------------------------------------------------------------------ *)
(** ** Auxiliary definitions for the statements *)

(** Whether a log's catalog item resolves in the library. *)
Definition resolvable (library : list PracticeLibraryItem) (log : PracticeLog) : bool :=
  match find_library_item library log with Some _ => true | None => false end.

Definition same_item (x : PracticeLibraryItem) (s : SelectedItem) : bool :=
  String.eqb s.(item).(li_id) x.(li_id).

Definition fresh_entry (x : PracticeLibraryItem) : SelectedItem :=
  {| item := x; plannedMinutes := 5; actualMinutes := None; logId := None |}.

(** Keys reaching the exact-duration editor: a digit key calls
    [appendTimeDigit], Backspace calls [backspaceTimeDigit]. *)
Inductive TimeKey := TDigit (d : string) | TBackspace.

Definition time_key (st : EditorState) (k : TimeKey) : EditorState :=
  match k with
  | TDigit d => appendTimeDigit st d
  | TBackspace => backspaceTimeDigit st
  end.

Fixpoint all_digits (s : string) : bool :=
  match s with
  | EmptyString => true
  | String c r => is_digit c && all_digits r
  end.

Definition time_buffer_ok (st : EditorState) : Prop :=
  all_digits st.(timeInputValue) = true /\ (String.length st.(timeInputValue) <= 3)%nat.

(* ------------------------------------------------------------------ *)
(** ** Sample values *)

Definition mk_lib (id : string) : PracticeLibraryItem :=
  {| li_id := id; li_name := id; li_type := None; li_artist := None; li_tags := [];
     li_frequency := []; li_current := false; li_lastPracticed := None;
     li_timesPracticed := None |}.

Definition mk_sel (li : PracticeLibraryItem) (m : Z) (ref : option string)
  : SelectedItem :=
  {| item := li; plannedMinutes := m; actualMinutes := None; logId := ref |}.

Definition mk_editor (sel orig : list SelectedItem) (active : option string)
    (panel : Z) : EditorState :=
  {| selectedItems := sel; originalItems := orig; activeSessionId := active;
     sessionCursorIndex := 0; selectedPanelIndex := panel; isEditingTime := false;
     timeInputValue := EmptyString |}.

Definition mk_log (id itemId sid : string) (m : Z) : PracticeLog :=
  {| pl_id := id; pl_name := itemId; pl_itemId := itemId; pl_sessionId := sid;
     pl_plannedTime := Some m; pl_actualTime := None |}.

Definition lib_a : PracticeLibraryItem := mk_lib "a".
Definition lib_b : PracticeLibraryItem := mk_lib "b".
Definition lib_c : PracticeLibraryItem := mk_lib "c".
Definition ex_library : list PracticeLibraryItem := [lib_a; lib_b; lib_c].

(** A persisted session whose two entries were swapped. *)
Definition ex_edit : EditorState :=
  mk_editor [mk_sel lib_b 10 (Some "lb"%string); mk_sel lib_a 5 (Some "la"%string)]
            [mk_sel lib_a 5 (Some "la"%string); mk_sel lib_b 10 (Some "lb"%string)] (Some "s1"%string) 0.

(** What the store answers for that session after the save. *)
Definition ex_fetched : list PracticeLog :=
  [mk_log "lb" "b" "s1" 10; mk_log "la" "a" "s1" 5].

(** A working set of one entry and no session yet. *)
Definition ex_new : EditorState := mk_editor [mk_sel lib_a 5 None] [] None 0.

(** A persisted session where [la] was removed and [c] added. *)
Definition ex_remove : EditorState :=
  mk_editor [mk_sel lib_b 10 (Some "lb"%string); mk_sel lib_c 5 None]
            [mk_sel lib_a 5 (Some "la"%string); mk_sel lib_b 10 (Some "lb"%string)] (Some "s1"%string) 0.

(** Three entries, cursor on the second one. *)
Definition ex_three : EditorState :=
  mk_editor [mk_sel lib_a 5 None; mk_sel lib_b 5 None; mk_sel lib_c 5 None] [] None 1.

(** The digit keys 1, 0, 0, 0. *)
Definition keys_1000 : list TimeKey := [TDigit "1"; TDigit "0"; TDigit "0"; TDigit "0"].

(** A freshly loaded session. *)
Definition ex_loaded : EditorState :=
  mk_editor [mk_sel lib_a 7 (Some "la"%string); mk_sel lib_b 10 (Some "lb"%string)]
            [mk_sel lib_a 7 (Some "la"%string); mk_sel lib_b 10 (Some "lb"%string)] (Some "s1"%string) 0.

(** A practice run of the first entry, stopped for confirmation after 90 s. *)
Definition ex_practice (ref : option string) : AppModel :=
  {| editor := mk_editor [mk_sel lib_a 5 ref] [mk_sel lib_a 5 ref] (Some "s1"%string) 0;
     practiceState := Some {| itemIndex := 0; startTime := 1000;
                              accumulatedMs := inject_Z 90000; isPaused := true;
                              isConfirming := true |};
     appState := Practicing |}.

(** The browse model before a practice run starts. *)
Definition ex_browse : AppModel :=
  {| editor := ex_new; practiceState := None; appState := Browse |}.

(* ------------------------------------------------------------------ *)
(** ** The rest of the session editor ([adjustTime], [totalMinutes],
    [selectSession], [clearSession], [cancelTimeEdit]) *)

(** [adjustTime(index, delta)]: guarded by [if (!current[index]) return current]. *)
Definition adjustTime (current : list SelectedItem) (index delta : Z)
  : list SelectedItem :=
  match js_get current index with
  | None => current
  | Some it => set_planned_nat current (Z.to_nat index)
                 (Z.max 1 (it.(plannedMinutes) + delta))
  end.

(** [selectedItems.reduce((sum, s) => sum + s.plannedMinutes, 0)]. *)
Definition totalMinutes (l : list SelectedItem) : Z :=
  fold_left (fun sum s => sum + s.(plannedMinutes)) l 0.

Definition cancelTimeEdit (st : EditorState) : EditorState :=
  with_time_edit st false ""%string.

(** [selectSession(sessionId, sessions)]. *)
Definition selectSession (st : EditorState) (sessionId : option string) : EditorState :=
  match sessionId with
  | None =>
      {| selectedItems := []; originalItems := []; activeSessionId := None;
         sessionCursorIndex := st.(sessionCursorIndex);
         selectedPanelIndex := st.(selectedPanelIndex);
         isEditingTime := st.(isEditingTime); timeInputValue := st.(timeInputValue) |}
  | Some s =>
      {| selectedItems := st.(selectedItems); originalItems := st.(originalItems);
         activeSessionId := Some s;
         sessionCursorIndex := st.(sessionCursorIndex);
         selectedPanelIndex := st.(selectedPanelIndex);
         isEditingTime := st.(isEditingTime); timeInputValue := st.(timeInputValue) |}
  end.

Definition clearSession (st : EditorState) : EditorState :=
  {| selectedItems := []; originalItems := []; activeSessionId := None;
     sessionCursorIndex := st.(sessionCursorIndex); selectedPanelIndex := 0;
     isEditingTime := st.(isEditingTime); timeInputValue := st.(timeInputValue) |}.

(** [setSelectedPanelIndex(c)]. *)
Definition set_panel (st : EditorState) (c : Z) : EditorState :=
  {| selectedItems := st.(selectedItems); originalItems := st.(originalItems);
     activeSessionId := st.(activeSessionId);
     sessionCursorIndex := st.(sessionCursorIndex); selectedPanelIndex := c;
     isEditingTime := st.(isEditingTime); timeInputValue := st.(timeInputValue) |}.

(** [setSessionCursorIndex(c)]. *)
Definition set_session_cursor (st : EditorState) (c : Z) : EditorState :=
  {| selectedItems := st.(selectedItems); originalItems := st.(originalItems);
     activeSessionId := st.(activeSessionId);
     sessionCursorIndex := c; selectedPanelIndex := st.(selectedPanelIndex);
     isEditingTime := st.(isEditingTime); timeInputValue := st.(timeInputValue) |}.

(* ------------------------------------------------------------------ *)
(** ** The selected pane ([createSelectedKeyHandler], SelectedPane.tsx) *)

(** What the handler does with a key: the editor state after the callback
    it calls ([SEditor], also when it calls none but returns [true]), the
    array and cursor after [moveItem] ([SMoved]), [startPractice(index)]
    ([SPractice]), [openInNotion(pageId)] ([SOpen]), or [SUnhandled] when
    it returns [false]. *)
Inductive SelOutcome :=
| SEditor (st : EditorState)
| SMoved (items : list (option SelectedItem)) (cursor : Z)
| SPractice (index : Z)
| SOpen (pageId : string)
| SUnhandled.

(** [createSelectedKeyHandler] as wired by [App]: [cursorIndex] is
    [selectedPanelIndex]. *)
Definition selected_key (st : EditorState) (k : KeyEvent) : SelOutcome :=
  let cursorIndex := st.(selectedPanelIndex) in
  let items := st.(selectedItems) in
  if st.(isEditingTime) then
    if key_is k "return" then SEditor (confirmTimeEdit st)
    else if key_is k "escape" then SEditor (cancelTimeEdit st)
    else if key_is k "backspace" then SEditor (backspaceTimeDigit st)
    else if digit_regex k.(kname) then SEditor (appendTimeDigit st k.(kname))
    else SEditor st
  else if k.(kshift) && (key_is k "k" || key_is k "K") then
    SMoved (fst (moveItem st cursorIndex Up)) (snd (moveItem st cursorIndex Up))
  else if k.(kshift) && (key_is k "j" || key_is k "J") then
    SMoved (fst (moveItem st cursorIndex Down)) (snd (moveItem st cursorIndex Down))
  else if key_is k "up" || key_is k "k" then
    SEditor (set_panel st (Z.max 0 (cursorIndex - 1)))
  else if key_is k "down" || key_is k "j" then
    SEditor (set_panel st (Z.min (Z.of_nat (List.length items) - 1) (cursorIndex + 1)))
  else if key_is k "=" || key_is k "+" || key_is k "]" then
    SEditor (set_items st (adjustTime items cursorIndex 1))
  else if key_is k "-" || key_is k "[" then
    SEditor (set_items st (adjustTime items cursorIndex (-1)))
  else if key_is k "x" || key_is k "d" then SEditor (removeItem st cursorIndex)
  else if key_is k "t" then SEditor (startTimeEdit st)
  else if key_is k "o" then
    match js_get items cursorIndex with
    | Some it => SOpen it.(item).(li_id)
    | None => SEditor st
    end
  else if key_is k "p" then
    match js_get items cursorIndex with
    | Some it => if truthy_str it.(logId) then SPractice cursorIndex else SEditor st
    | None => SEditor st
    end
  else SUnhandled.

(* ------------------------------------------------------------------ *)
(** ** The practice screen ([requestStopPractice], [cancelConfirmPractice],
    [createPracticeKeyHandler], the status message of [confirmSavePractice]) *)

Definition requestStopPractice (m : AppModel) (now : Z) : AppModel :=
  match m.(practiceState) with
  | None => m
  | Some p =>
      let p' :=
        if negb p.(isPaused) then
          {| itemIndex := p.(itemIndex); startTime := p.(startTime);
             accumulatedMs := (p.(accumulatedMs) + inject_Z (now - p.(startTime)))%Q;
             isPaused := true; isConfirming := true |}
        else
          {| itemIndex := p.(itemIndex); startTime := p.(startTime);
             accumulatedMs := p.(accumulatedMs); isPaused := p.(isPaused);
             isConfirming := true |} in
      {| editor := m.(editor); practiceState := Some p'; appState := m.(appState) |}
  end.

Definition cancelConfirmPractice (m : AppModel) : AppModel :=
  match m.(practiceState) with
  | None => m
  | Some p =>
      {| editor := m.(editor);
         practiceState := Some {| itemIndex := p.(itemIndex); startTime := p.(startTime);
                                  accumulatedMs := p.(accumulatedMs);
                                  isPaused := p.(isPaused); isConfirming := false |};
         appState := m.(appState) |}
  end.

(** A key pressed at time [now] in the practice branch of [App]'s keyboard
    callback ([state === "practicing" && practiceState]), handled by
    [createPracticeKeyHandler]; [None] when that branch is not taken.
    [update_ok], [fetched] and [library] are as for [confirmSavePractice]. *)
Definition practice_key (m : AppModel) (k : KeyEvent) (now : Z) (update_ok : bool)
    (fetched : list PracticeLog) (library : list PracticeLibraryItem)
  : option (list StoreCall * AppModel) :=
  match m.(appState), m.(practiceState) with
  | Practicing, Some p =>
      Some (if p.(isConfirming) then
              if key_is k "y" then confirmSavePractice m update_ok fetched library
              else if key_is k "n" then ([], cancelConfirmPractice m)
              else if key_is k "escape" then ([], cancelPractice m)
              else ([], m)
            else if key_is k "space" then ([], togglePausePractice m now)
            else if key_is k "return" then ([], requestStopPractice m now)
            else if key_is k "escape" then ([], cancelPractice m)
            else ([], m))
  | _, _ => None
  end.

(** Keys with the times they are pressed at, for as long as the practice
    branch takes them: the calls issued and the model afterwards. *)
Fixpoint practice_keys (m : AppModel) (ks : list (KeyEvent * Z)) (update_ok : bool)
    (fetched : list PracticeLog) (library : list PracticeLibraryItem)
  : list StoreCall * AppModel :=
  match ks with
  | [] => ([], m)
  | (k, now) :: rest =>
      match practice_key m k now update_ok fetched library with
      | Some (calls, m') =>
          let (calls', m'') := practice_keys m' rest update_ok fetched library in
          (calls ++ calls', m'')
      | None => ([], m)
      end
  end.

(* ------------------------------------------------------------------ *)
(** ** The library pane ([createLibraryKeyHandler], [LibraryPane]) *)

(** The cursor updates ([setCursorIndex]) of [createLibraryKeyHandler] on
    [len] filtered items; every other key leaves the cursor as it is. *)
Definition library_cursor (len : nat) (i : Z) (k : KeyEvent) : Z :=
  let n := Z.of_nat len in
  if k.(kctrl) && key_is k "f" then Z.min (n - 1) (i + 12)
  else if k.(kctrl) && key_is k "b" then Z.max 0 (i - 12)
  else if key_is k "up" || key_is k "k" then Z.max 0 (i - 1)
  else if key_is k "down" || key_is k "j" then Z.min (n - 1) (i + 1)
  else if key_is k "1" || key_is k "2" || key_is k "3" || key_is k "f" then 0
  else i.

Definition VISIBLE_COUNT : Z := 15.
Definition SCROLL_PADDING : Z := 3.

(** The scroll window of [LibraryPane]: rows [windowStart .. windowEnd - 1]
    of [len] items are drawn. *)
Definition windowStart (cursorIndex : Z) (len : nat) : Z :=
  if VISIBLE_COUNT - SCROLL_PADDING - 1 <? cursorIndex
  then Z.min (cursorIndex - (VISIBLE_COUNT - SCROLL_PADDING - 1))
             (Z.max 0 (Z.of_nat len - VISIBLE_COUNT))
  else 0.

Definition windowEnd (cursorIndex : Z) (len : nat) : Z :=
  Z.min (windowStart cursorIndex len + VISIBLE_COUNT) (Z.of_nat len).

(* ------------------------------------------------------------------ *)
(** ** The session picker ([createSessionPickerKeyHandler], [SessionPicker]) *)

Record PracticeSession := { ps_id : string; ps_name : string; ps_date : string }.

(** The handler with [cursorIndex = sessionCursorIndex]: the calls, the
    editor state once the [loadSessionLogs] it starts has answered
    [fetched], and whether [onClose] ran; [None] when it returns [false]. *)
Definition picker_key (sessions : list PracticeSession) (st : EditorState) (k : KeyEvent)
    (fetched : list PracticeLog) (library : list PracticeLibraryItem)
  : option (list StoreCall * EditorState * bool) :=
  let cursorIndex := st.(sessionCursorIndex) in
  if key_is k "up" || key_is k "k" then
    Some ([], set_session_cursor st (Z.max 0 (cursorIndex - 1)), false)
  else if key_is k "down" || key_is k "j" then
    Some ([], set_session_cursor st
                (Z.min (Z.of_nat (List.length sessions)) (cursorIndex + 1)), false)
  else if key_is k "space" || key_is k "return" then
    if cursorIndex =? 0 then Some ([], clearSession st, true)
    else
      match js_get sessions (cursorIndex - 1) with
      | Some session =>
          Some ([FetchLogs session.(ps_id)],
                loadSessionLogs (selectSession st (Some session.(ps_id))) fetched library,
                true)
      | None => Some ([], st, true)
      end
  else if key_is k "escape" then Some ([], st, true)
  else None.

(** Whether [SessionPicker] draws the cursor marker for cursor [c]: row 0
    is "New Session", row [idx + 1] the [idx]-th of [sessions.slice(0, 10)]. *)
Definition picker_drawn (sessions : list PracticeSession) (c : Z) : bool :=
  (c =? 0) || existsb (fun idx => Z.of_nat idx + 1 =? c)
                      (seq 0 (List.length (firstn 10 sessions))).

(* ------------------------------------------------------------------ *)
(** ** Routing and the save shortcut of [App] in browse *)

Inductive Route := RGlobal | RPane (f : FocusArea).

(** Whether the browse branch of [App]'s keyboard callback handles a key
    itself ([RGlobal]) or passes it to the focused pane's handler. *)
Definition dispatch_route (focus : FocusArea) (k : KeyEvent) : Route :=
  let notPicker := negb (focus_eqb focus FSessionPicker) in
  let notSearch := negb (focus_eqb focus FSearch) in
  if key_is k "tab" && notPicker then RGlobal
  else if key_is k "escape" && negb notPicker then RGlobal
  else if key_is k "escape" && notSearch then RGlobal
  else if key_is k "e" && notSearch && notPicker then RGlobal
  else if key_is k "s" && notSearch && notPicker then RGlobal
  else if key_is k "r" && notSearch && notPicker then RGlobal
  else if k.(kctrl) && key_is k "h" && notPicker then RGlobal
  else if k.(kctrl) && key_is k "l" && notPicker then RGlobal
  else if k.(kctrl) && key_is k "k" && notPicker then RGlobal
  else if k.(kctrl) && key_is k "j" && negb notSearch then RGlobal
  else RPane focus.

(** The [s] shortcut: [saveSession] only when the working set is not empty. *)
Definition save_shortcut (st : EditorState) (today newSessionId : string)
    (fetched : list PracticeLog) (library : list PracticeLibraryItem)
  : list StoreCall * EditorState :=
  if (0 <? List.length st.(selectedItems))%nat
  then saveSession st today newSessionId fetched library
  else ([], st).

Definition planned_ok (l : list SelectedItem) : Prop :=
  Forall (fun s => 1 <= s.(plannedMinutes)) l.

(** Sample values for the handlers above. *)
Definition ex_session : PracticeSession :=
  {| ps_id := "s1"; ps_name := "Monday"; ps_date := "2024-01-01" |}.

(** A picker with the cursor on the first session line. *)
Definition ex_picker : EditorState := set_session_cursor ex_loaded 1.

(** The practice run of the first entry of [ex_loaded], started at 0 and
    stopped with Return at 1000. *)
Definition ex_confirming_state : PracticeState :=
  {| itemIndex := 0; startTime := 0; accumulatedMs := (0 + inject_Z (1000 - 0))%Q;
     isPaused := true; isConfirming := true |}.

Definition ex_confirming : AppModel :=
  {| editor := ex_loaded; practiceState := Some ex_confirming_state; appState := Practicing |}.

(** Eleven sessions: one more than the picker draws. *)
Definition ex_many_sessions : list PracticeSession := repeat ex_session 11.

(** A session whose entries were all removed. *)
Definition ex_emptied : EditorState :=
  mk_editor [] [mk_sel lib_a 7 (Some "la"%string)] (Some "s1"%string) 0.

(* ================================================================== *)
(** * Lemmas *)

Lemma truthy_some (s : string) : s <> ""%string -> truthy_str (Some s) = true.
Proof.
  intro H. simpl. destruct (String.eqb_spec s ""); [contradiction | reflexivity].
Qed.

Lemma truthy_inv (o : option string) :
  truthy_str o = true -> exists s, o = Some s /\ s <> ""%string.
Proof.
  destruct o as [s|]; simpl; [|discriminate].
  destruct (String.eqb_spec s ""); simpl; [discriminate|eauto].
Qed.

Lemma opt_str_eqb_true (a b : option string) : opt_str_eqb a b = true <-> a = b.
Proof.
  destruct a as [x|], b as [y|]; simpl; split; intro H; try discriminate; try reflexivity.
  - apply String.eqb_eq in H; subst; reflexivity.
  - injection H as <-; apply String.eqb_refl.
Qed.

Lemma js_get_nat {A} (l : list A) (n : nat) : js_get l (Z.of_nat n) = nth_error l n.
Proof.
  unfold js_get. replace (Z.of_nat n <? 0) with false by (symmetry; apply Z.ltb_ge; lia).
  now rewrite Nat2Z.id.
Qed.

Lemma findIndex_nonneg_or {A} (p : A -> bool) l : findIndex p l = -1 \/ 0 <= findIndex p l.
Proof.
  induction l as [|x r IH]; simpl; [auto|].
  destruct (p x); [right; lia|].
  destruct (findIndex p r <? 0) eqn:E; [auto|]. apply Z.ltb_ge in E. right; lia.
Qed.

(** [findIndex] returns the first matching position. *)
Lemma findIndex_first {A} (p : A -> bool) (l : list A) (j : nat) (x : A) :
  nth_error l j = Some x -> p x = true ->
  (forall k y, (k < j)%nat -> nth_error l k = Some y -> p y = false) ->
  findIndex p l = Z.of_nat j.
Proof.
  revert j. induction l as [|a r IH]; intros j Hj Hp Hfirst.
  - destruct j; discriminate.
  - destruct j as [|j]; simpl in Hj.
    + injection Hj as ->. simpl. now rewrite Hp.
    + simpl. rewrite (Hfirst 0%nat a) by (reflexivity || lia).
      rewrite (IH j Hj Hp).
      * replace (Z.of_nat j <? 0) with false by (symmetry; apply Z.ltb_ge; lia). lia.
      * intros k y Hk Hy. apply (Hfirst (S k) y); [lia | exact Hy].
Qed.

Lemma in_save_items orig sid sel k c :
  In c (save_items orig sid k sel) <->
  exists n it, nth_error sel n = Some it /\
               In c (save_item orig sid (k + Z.of_nat n) it).
Proof.
  revert k. induction sel as [|a r IH]; intro k; simpl.
  - split; [tauto|]. intros (n & it & H & _). destruct n; discriminate.
  - rewrite in_app_iff, IH. split.
    + intros [H|(n & it & Hn & Hc)].
      * exists 0%nat, a. split; [reflexivity|]. now rewrite Z.add_0_r.
      * exists (S n), it. split; [exact Hn|].
        now replace (k + Z.of_nat (S n)) with (k + 1 + Z.of_nat n) by lia.
    + intros ([|n] & it & Hn & Hc); simpl in Hn.
      * injection Hn as ->. left. now rewrite Z.add_0_r in Hc.
      * right. exists n, it. split; [exact Hn|].
        now replace (k + 1 + Z.of_nat n) with (k + Z.of_nat (S n)) by lia.
Qed.

Lemma in_delete_removed orig cur c :
  In c (delete_removed orig cur) ->
  exists o, In o orig /\ truthy_str o.(logId) = true /\
            mem_str (ref_of o.(logId)) cur = false /\ c = DeleteLog (ref_of o.(logId)).
Proof.
  unfold delete_removed. rewrite in_flat_map. intros (o & Ho & Hc).
  destruct (truthy_str o.(logId)) eqn:T; simpl in Hc; [|contradiction].
  destruct (mem_str (ref_of o.(logId)) cur) eqn:M; simpl in Hc; [contradiction|].
  destruct Hc as [<-|[]]. eauto.
Qed.

Lemma save_item_update_ref orig sid i it c s :
  In c (save_item orig sid i it) -> is_update_of s c = true -> it.(logId) = Some s.
Proof.
  unfold save_item. intros H Hu.
  destruct (truthy_str it.(logId)) eqn:T.
  - destruct (truthy_inv _ T) as (t & Ht & _). rewrite Ht in *.
    destruct (_ || _); simpl in H; [|contradiction].
    destruct H as [<-|[]]. simpl in Hu. apply String.eqb_eq in Hu. now subst.
  - destruct H as [<-|[]]. discriminate.
Qed.

(** The per-entry decision of the edit branch, for an entry whose log id
    sits at position [j] of the baseline and nowhere before it. *)
Lemma save_item_with_baseline orig sid i it s j o :
  it.(logId) = Some s -> s <> ""%string ->
  nth_error orig j = Some o -> o.(logId) = Some s ->
  (forall k y, (k < j)%nat -> nth_error orig k = Some y -> y.(logId) <> Some s) ->
  save_item orig sid i it =
  if negb (o.(plannedMinutes) =? it.(plannedMinutes)) || negb (Z.of_nat j =? i)
  then [UpdateLog s
          {| up_plannedTime := if negb (o.(plannedMinutes) =? it.(plannedMinutes))
                               then Some it.(plannedMinutes) else None;
             up_order := if negb (Z.of_nat j =? i) then Some i else None;
             up_actualTime := None |}]
  else [].
Proof.
  intros Hs Hne Hj Ho Hfirst. unfold save_item.
  rewrite Hs, (truthy_some s Hne).
  rewrite (findIndex_first _ orig j o Hj).
  - rewrite js_get_nat, Hj. reflexivity.
  - apply opt_str_eqb_true. now rewrite Ho.
  - intros k y Hk Hy. destruct (opt_str_eqb (logId y) (Some s)) eqn:E; [|reflexivity].
    apply opt_str_eqb_true in E. exfalso. exact (Hfirst k y Hk Hy E).
Qed.

Lemma save_update_iff sel orig sid i it s j o :
  nth_error sel i = Some it -> it.(logId) = Some s -> s <> ""%string ->
  (forall k it', nth_error sel k = Some it' -> it'.(logId) = Some s -> k = i) ->
  nth_error orig j = Some o -> o.(logId) = Some s ->
  (forall k o', nth_error orig k = Some o' -> o'.(logId) = Some s -> k = j) ->
  (exists c, In c (save_edit sel orig sid) /\ is_update_of s c = true) <->
  (o.(plannedMinutes) <> it.(plannedMinutes) \/ j <> i).
Proof.
  intros Hi Hs Hne Huniq Hj Ho Hjuniq.
  assert (Eq := save_item_with_baseline orig sid (Z.of_nat i) it s j o Hs Hne Hj Ho
                  (fun k y Hk Hy Hys => ltac:(specialize (Hjuniq k y Hy Hys); lia))).
  split.
  - intros (c & Hc & Hu). unfold save_edit in Hc. apply in_app_or in Hc as [Hc|Hc].
    + apply in_delete_removed in Hc as (o' & _ & _ & _ & ->). discriminate.
    + apply in_save_items in Hc as (n & it' & Hn & Hc).
      rewrite Z.add_0_l in Hc.
      pose proof (save_item_update_ref _ _ _ _ _ _ Hc Hu) as Hs'.
      pose proof (Huniq n it' Hn Hs') as ->. rewrite Hi in Hn. injection Hn as <-.
      rewrite Eq in Hc.
      destruct (_ || _) eqn:B; [|contradiction].
      apply orb_true_iff in B as [B|B]; apply negb_true_iff, Z.eqb_neq in B;
        [left; exact B | right; lia].
  - intro Hd.
    assert (B : negb (o.(plannedMinutes) =? it.(plannedMinutes))
                || negb (Z.of_nat j =? Z.of_nat i) = true).
    { apply orb_true_iff. destruct Hd as [Hd|Hd]; [left|right];
        apply negb_true_iff, Z.eqb_neq; [exact Hd | lia]. }
    eexists. split.
    + unfold save_edit. apply in_app_iff. right. apply in_save_items.
      exists i, it. split; [exact Hi|]. rewrite Z.add_0_l, Eq, B. left. reflexivity.
    + simpl. apply String.eqb_refl.
Qed.

(** Every entry of a list with distinct, present log ids compares equal to
    itself in the baseline. *)
Lemma save_items_self (sid : string) :
  forall suffix p,
    NoDup (map logId (p ++ suffix)) ->
    (forall it, In it (p ++ suffix) -> exists s, it.(logId) = Some s /\ s <> ""%string) ->
    save_items (p ++ suffix) sid (Z.of_nat (List.length p)) suffix = [].
Proof.
  induction suffix as [|it r IH]; intros p Hnd Hsome; [reflexivity|].
  simpl.
  destruct (Hsome it) as (s & Hs & Hne); [apply in_or_app; right; left; reflexivity|].
  assert (Hj : nth_error (p ++ it :: r) (List.length p) = Some it).
  { rewrite nth_error_app2 by lia. now rewrite Nat.sub_diag. }
  rewrite (save_item_with_baseline _ sid _ it s (List.length p) it Hs Hne Hj Hs).
  - rewrite Z.eqb_refl, Z.eqb_refl. simpl.
    replace (Z.of_nat (List.length p) + 1) with (Z.of_nat (List.length (p ++ [it])))
      by (rewrite length_app; simpl; lia).
    replace (p ++ it :: r) with ((p ++ [it]) ++ r) in * by (now rewrite <- app_assoc).
    apply IH; assumption.
  - intros k y Hk Hy Hys.
    rewrite NoDup_nth_error in Hnd.
    assert (k = List.length p); [|lia].
    apply Hnd.
    + rewrite length_map, length_app; simpl; lia.
    + rewrite !nth_error_map, Hy, Hj. simpl. now rewrite Hys, Hs.
Qed.

Lemma delete_removed_self (l : list SelectedItem) :
  delete_removed l (currentIds l) = [].
Proof.
  destruct (delete_removed l (currentIds l)) as [|c r] eqn:E; [reflexivity|].
  assert (Hc : In c (delete_removed l (currentIds l))) by (rewrite E; left; reflexivity).
  apply in_delete_removed in Hc as (o & Ho & T & M & _).
  exfalso. revert M. apply not_false_iff_true.
  unfold mem_str. apply existsb_exists. exists (ref_of o.(logId)). split.
  - unfold currentIds. apply (in_map (fun i => ref_of i.(logId))). apply filter_In. auto.
  - apply String.eqb_refl.
Qed.

Lemma save_edit_self (l : list SelectedItem) (sid : string) :
  NoDup (map logId l) ->
  (forall it, In it l -> exists s, it.(logId) = Some s /\ s <> ""%string) ->
  save_edit l l sid = [].
Proof.
  intros Hnd Hsome. unfold save_edit. rewrite delete_removed_self. simpl.
  apply (save_items_self sid l []); assumption.
Qed.

Lemma build_items_refs library logs it :
  In it (build_items library logs) ->
  exists log, In log logs /\ it.(logId) = Some log.(pl_id).
Proof.
  induction logs as [|log r IH]; simpl; [contradiction|].
  destruct (find_library_item library log); [intros [<-|H]|intro H].
  - exists log. auto.
  - destruct (IH H) as (l & ? & ?). eauto.
  - destruct (IH H) as (l & ? & ?). eauto.
Qed.

Lemma build_items_nodup library logs :
  NoDup (map pl_id logs) -> NoDup (map logId (build_items library logs)).
Proof.
  induction logs as [|log r IH]; simpl; intro Hnd; [constructor|].
  inversion Hnd as [|? ? Hnotin Hnd']; subst.
  destruct (find_library_item library log); [|auto].
  simpl. constructor; [|auto].
  intro Hin. apply in_map_iff in Hin as (it & Heq & Hit).
  destruct (build_items_refs _ _ _ Hit) as (l & Hl & Hlid).
  rewrite Heq in Hlid. injection Hlid as Hlid. apply Hnotin.
  rewrite Hlid. now apply in_map.
Qed.

(** After a reload from a store whose log ids are distinct and non-empty,
    a save with an active session issues only reads. *)
Lemma save_after_load st fetched library today nsid fetched2 :
  NoDup (map pl_id fetched) -> Forall (fun l => l.(pl_id) <> ""%string) fetched ->
  truthy_str st.(activeSessionId) = true ->
  forall c, In c (fst (saveSession (loadSessionLogs st fetched library)
                                   today nsid fetched2 library)) ->
            is_write c = false.
Proof.
  intros Hnd Hne Hact c Hc. unfold saveSession in Hc. simpl in Hc.
  rewrite Hact, andb_false_r in Hc. simpl in Hc.
  rewrite save_edit_self in Hc.
  - simpl in Hc. destruct Hc as [<-|[<-|[]]]; reflexivity.
  - now apply build_items_nodup.
  - intros it Hit. destruct (build_items_refs _ _ _ Hit) as (l & Hl & ->).
    exists l.(pl_id). split; [reflexivity|].
    rewrite Forall_forall in Hne. now apply Hne.
Qed.

(** A successful save followed at once by a second save: the second one
    issues no create, update or delete. *)
Lemma save_twice_no_writes st today nsid fetched library calls st'
    today2 nsid2 fetched2 :
  nsid <> ""%string ->
  NoDup (map pl_id fetched) -> Forall (fun l => l.(pl_id) <> ""%string) fetched ->
  saveSession st today nsid fetched library = (calls, st') ->
  forall c, In c (fst (saveSession st' today2 nsid2 fetched2 library)) ->
            is_write c = false.
Proof.
  intros Hnsid Hnd Hne Hsave. unfold saveSession in Hsave.
  destruct ((List.length st.(selectedItems) =? 0)%nat && negb (truthy_str st.(activeSessionId)))
    eqn:Noop.
  - injection Hsave as _ <-. intros c Hc. unfold saveSession in Hc.
    rewrite Noop in Hc. contradiction.
  - destruct (truthy_str st.(activeSessionId)) eqn:Act; injection Hsave as _ <-.
    + now apply save_after_load.
    + apply save_after_load; try assumption. simpl. now apply truthy_some.
Qed.

Lemma saveSession_active st today nsid fetched library :
  truthy_str st.(activeSessionId) = true ->
  fst (saveSession st today nsid fetched library) =
  save_edit st.(selectedItems) st.(originalItems) (ref_of st.(activeSessionId))
    ++ [FetchSessions; FetchLogs (ref_of st.(activeSessionId))].
Proof.
  intro Hact. unfold saveSession. rewrite Hact, andb_false_r. reflexivity.
Qed.

Lemma save_item_not_delete orig sid i it c :
  In c (save_item orig sid i it) -> is_delete c = false.
Proof.
  unfold save_item. destruct (truthy_str _); [destruct (_ || _)|];
    simpl; intros H; repeat destruct H as [<-|H]; try reflexivity; contradiction.
Qed.

Lemma filter_save_items_delete orig sid i sel (f : StoreCall -> bool) :
  (forall c, f c = true -> is_delete c = true) ->
  filter f (save_items orig sid i sel) = [].
Proof.
  intro Hf. destruct (filter f (save_items orig sid i sel)) as [|c r] eqn:E; [reflexivity|].
  assert (Hc : In c (filter f (save_items orig sid i sel))) by (rewrite E; left; reflexivity).
  apply filter_In in Hc as [Hc Hfc]. apply in_save_items in Hc as (n & it & _ & Hc).
  apply save_item_not_delete in Hc. rewrite (Hf c Hfc) in Hc. discriminate.
Qed.

Lemma is_delete_of_delete s c : is_delete_of s c = true -> is_delete c = true.
Proof. destruct c; simpl; congruence. Qed.

Lemma mem_str_false s l : ~ In s l -> mem_str s l = false.
Proof.
  intro H. unfold mem_str. apply not_true_iff_false. intro E.
  apply existsb_exists in E as (t & Ht & Et). apply String.eqb_eq in Et. subst. auto.
Qed.

Lemma delete_removed_cons o r cur :
  delete_removed (o :: r) cur =
  (if truthy_str o.(logId) && negb (mem_str (ref_of o.(logId)) cur)
   then [DeleteLog (ref_of o.(logId))] else []) ++ delete_removed r cur.
Proof. reflexivity. Qed.

Lemma delete_count_absent s cur orig :
  ~ In (Some s) (map logId orig) ->
  filter (is_delete_of s) (delete_removed orig cur) = [].
Proof.
  induction orig as [|o r IH]; intro Hn; [reflexivity|]. simpl in Hn.
  rewrite delete_removed_cons, filter_app, IH by tauto. rewrite app_nil_r.
  destruct (truthy_str o.(logId) && negb (mem_str (ref_of o.(logId)) cur)) eqn:E;
    [|reflexivity].
  apply andb_true_iff in E as [T _]. destruct (truthy_inv _ T) as (t & Ht & _).
  rewrite Ht. simpl. destruct (String.eqb_spec t s); [|reflexivity].
  subst. exfalso. auto.
Qed.

Lemma delete_count_one s cur orig :
  In (Some s) (map logId orig) -> NoDup (map logId orig) -> s <> ""%string ->
  ~ In s cur ->
  List.length (filter (is_delete_of s) (delete_removed orig cur)) = 1%nat.
Proof.
  induction orig as [|o r IH]; intros Hin Hnd Hne Hcur; [contradiction|].
  simpl in Hin, Hnd. inversion Hnd as [|? ? Hnotin Hnd']; subst.
  rewrite delete_removed_cons, filter_app, length_app.
  destruct Hin as [Ho|Hin].
  - rewrite Ho in *. rewrite delete_count_absent by exact Hnotin.
    rewrite (truthy_some s Hne). simpl. rewrite (mem_str_false s cur Hcur). simpl.
    now rewrite String.eqb_refl.
  - rewrite (IH Hin Hnd' Hne Hcur).
    destruct (truthy_str o.(logId) && negb (mem_str (ref_of o.(logId)) cur)) eqn:E;
      [|reflexivity].
    apply andb_true_iff in E as [T _]. destruct (truthy_inv _ T) as (t & Ht & _).
    rewrite Ht in *. simpl. destruct (String.eqb_spec t s); [|reflexivity].
    subst. contradiction.
Qed.

Lemma delete_count_save_edit sel orig sid s :
  In (Some s) (map logId orig) -> NoDup (map logId orig) -> s <> ""%string ->
  ~ In s (currentIds sel) ->
  List.length (filter (is_delete_of s) (save_edit sel orig sid)) = 1%nat.
Proof.
  intros. unfold save_edit. rewrite filter_app, length_app.
  rewrite filter_save_items_delete by apply is_delete_of_delete.
  rewrite delete_count_one by assumption. reflexivity.
Qed.

(** Creates of the edit branch: one per entry without a truthy log id. *)
Lemma create_count_save_items orig sid sel :
  forall i, List.length (filter is_create_log (save_items orig sid i sel)) =
            List.length (filter (fun it => negb (truthy_str it.(logId))) sel).
Proof.
  induction sel as [|it r IH]; intro i; [reflexivity|].
  simpl. rewrite filter_app, length_app, IH.
  unfold save_item. destruct (truthy_str it.(logId)); simpl; [|reflexivity].
  destruct (_ || _); reflexivity.
Qed.

(** A negative index removes nothing. *)
Lemma remove_at_neg {A} (l : list A) k : k < 0 -> remove_at l k = l.
Proof.
  revert k. induction l as [|b l IHl]; intros k Hk; [reflexivity|]. simpl.
  replace (k =? 0) with false by (symmetry; apply Z.eqb_neq; lia).
  rewrite IHl by lia. reflexivity.
Qed.

Lemma remove_at_succ {A} (a : A) r n :
  remove_at (a :: r) (Z.of_nat (S n)) = a :: remove_at r (Z.of_nat n).
Proof.
  transitivity (if Z.of_nat (S n) =? 0 then remove_at r (Z.of_nat (S n) - 1)
                else a :: remove_at r (Z.of_nat (S n) - 1)); [reflexivity|].
  replace (Z.of_nat (S n) =? 0) with false by (symmetry; apply Z.eqb_neq; lia).
  now replace (Z.of_nat (S n) - 1) with (Z.of_nat n) by lia.
Qed.

Lemma currentIds_cons a l :
  currentIds (a :: l) =
  (if truthy_str a.(logId) then [ref_of a.(logId)] else []) ++ currentIds l.
Proof. unfold currentIds. simpl. destruct (truthy_str a.(logId)); reflexivity. Qed.

Lemma remove_at_falsy_currentIds sel n x :
  nth_error sel n = Some x -> truthy_str x.(logId) = false ->
  currentIds (remove_at sel (Z.of_nat n)) = currentIds sel.
Proof.
  revert n. induction sel as [|a r IH]; intros n Hn Hx; [destruct n; discriminate|].
  destruct n as [|n]; simpl in Hn.
  - injection Hn as ->. simpl. rewrite currentIds_cons, Hx.
    now rewrite remove_at_neg by lia.
  - rewrite remove_at_succ, !currentIds_cons, (IH n Hn Hx). reflexivity.
Qed.

Lemma remove_at_falsy_count sel n x :
  nth_error sel n = Some x -> truthy_str x.(logId) = false ->
  S (List.length (filter (fun it => negb (truthy_str it.(logId))) (remove_at sel (Z.of_nat n))))
  = List.length (filter (fun it => negb (truthy_str it.(logId))) sel).
Proof.
  revert n. induction sel as [|a r IH]; intros n Hn Hx; [destruct n; discriminate|].
  destruct n as [|n]; simpl in Hn.
  - injection Hn as ->. simpl. rewrite Hx. simpl.
    now rewrite remove_at_neg by lia.
  - rewrite remove_at_succ. simpl. destruct (negb (truthy_str a.(logId))); simpl; rewrite <- (IH n Hn Hx); reflexivity.
Qed.

Lemma build_items_spec library logs :
  Forall2 (fun it log =>
             it.(logId) = Some log.(pl_id) /\
             find_library_item library log = Some it.(item) /\
             it.(plannedMinutes) = planned_or_default log.(pl_plannedTime) /\
             it.(actualMinutes) = log.(pl_actualTime))
          (build_items library logs) (filter (resolvable library) logs).
Proof.
  induction logs as [|log r IH]; simpl; [constructor|].
  unfold resolvable at 1. destruct (find_library_item library log) eqn:F.
  - constructor; [|exact IH]. simpl. auto.
  - exact IH.
Qed.

Lemma toggleItem_eq current x :
  toggleItem current x =
  if existsb (same_item x) current
  then filter (fun s => negb (same_item x s)) current
  else current ++ [fresh_entry x].
Proof. reflexivity. Qed.

Lemma existsb_same_item current x :
  existsb (same_item x) current = true <->
  In x.(li_id) (map (fun s => s.(item).(li_id)) current).
Proof.
  rewrite existsb_exists, in_map_iff. split.
  - intros (s & Hs & E). apply String.eqb_eq in E. eauto.
  - intros (s & E & Hs). exists s. split; [exact Hs|]. unfold same_item. now rewrite E, String.eqb_refl.
Qed.

Lemma filter_none_same current x :
  existsb (same_item x) current = false ->
  filter (fun s => negb (same_item x s)) current = current.
Proof.
  induction current as [|a r IH]; simpl; [reflexivity|].
  intro H. apply orb_false_iff in H as [Ha Hr]. rewrite Ha. simpl. now rewrite IH.
Qed.

Lemma existsb_filter_same current x :
  existsb (same_item x) (filter (fun s => negb (same_item x s)) current) = false.
Proof.
  induction current as [|a r IH]; simpl; [reflexivity|].
  destruct (same_item x a) eqn:E; simpl; [exact IH|]. now rewrite E, IH.
Qed.

Lemma same_item_fresh x : same_item x (fresh_entry x) = true.
Proof. unfold same_item. simpl. apply String.eqb_refl. Qed.

Lemma toggle_twice_absent current x :
  ~ In x.(li_id) (map (fun s => s.(item).(li_id)) current) ->
  toggleItem (toggleItem current x) x = current.
Proof.
  intro H. assert (E : existsb (same_item x) current = false).
  { apply not_true_iff_false. rewrite existsb_same_item. exact H. }
  rewrite (toggleItem_eq current), E, toggleItem_eq.
  rewrite existsb_app, E. simpl. rewrite same_item_fresh. simpl.
  rewrite filter_app, filter_none_same by exact E. simpl.
  rewrite same_item_fresh. simpl. apply app_nil_r.
Qed.

Lemma toggle_twice_present current x :
  In x.(li_id) (map (fun s => s.(item).(li_id)) current) ->
  toggleItem (toggleItem current x) x =
  filter (fun s => negb (same_item x s)) current ++ [fresh_entry x].
Proof.
  intro H. apply existsb_same_item in H.
  rewrite (toggleItem_eq current), H, toggleItem_eq, existsb_filter_same. reflexivity.
Qed.

Lemma nodup_map_inj {A B} (f : A -> B) (l : list A) x y :
  NoDup (map f l) -> In x l -> In y l -> f x = f y -> x = y.
Proof.
  induction l as [|a r IH]; simpl; [contradiction|].
  intros Hnd Hx Hy E. inversion Hnd as [|? ? Hn Hnd']; subst.
  destruct Hx as [<-|Hx], Hy as [<-|Hy]; auto.
  - exfalso. apply Hn. rewrite E. now apply in_map.
  - exfalso. apply Hn. rewrite <- E. now apply in_map.
Qed.

Lemma currentIds_app l r : currentIds (l ++ r) = currentIds l ++ currentIds r.
Proof. unfold currentIds. now rewrite filter_app, map_app. Qed.

Lemma in_currentIds s l :
  In s (currentIds l) -> exists y, In y l /\ y.(logId) = Some s.
Proof.
  unfold currentIds. rewrite in_map_iff. intros (y & E & Hy).
  apply filter_In in Hy as [Hy T]. destruct (truthy_inv _ T) as (t & Ht & _).
  rewrite Ht in E. simpl in E. subst. eauto.
Qed.

Lemma all_digits_append s d :
  all_digits s = true -> digit_regex d = true ->
  all_digits (s ++ d) = true /\ String.length (s ++ d) = S (String.length s).
Proof.
  induction s as [|c r IH]; simpl; intros Hs Hd.
  - destruct d as [|c [|c' r']]; simpl in *; try discriminate.
    now rewrite Hd.
  - apply andb_true_iff in Hs as [Hc Hr]. destruct (IH Hr Hd) as [H1 H2].
    rewrite Hc, H1, H2. auto.
Qed.

Lemma all_digits_substring s n :
  all_digits s = true ->
  all_digits (substring 0 n s) = true /\ (String.length (substring 0 n s) <= String.length s)%nat.
Proof.
  revert n. induction s as [|c r IH]; intros n Hs; destruct n as [|n]; simpl;
    try (split; [reflexivity | lia]).
  simpl in Hs. apply andb_true_iff in Hs as [Hc Hr]. destruct (IH n Hr) as [H1 H2].
  rewrite Hc, H1. split; [reflexivity | lia].
Qed.

Lemma time_key_ok st k : time_buffer_ok st -> time_buffer_ok (time_key st k).
Proof.
  intros [Hd Hl]. destruct k as [d|]; simpl.
  - unfold appendTimeDigit. destruct (digit_regex d) eqn:R; cbn [negb];
      [|exact (conj Hd Hl)].
    destruct (3 <=? String.length st.(timeInputValue))%nat eqn:L; [exact (conj Hd Hl)|].
    apply Nat.leb_gt in L. destruct (all_digits_append _ _ Hd R) as [H1 H2].
    unfold time_buffer_ok. simpl. split; [exact H1 | lia].
  - unfold backspaceTimeDigit, drop_last, time_buffer_ok. simpl.
    destruct (all_digits_substring st.(timeInputValue) (String.length st.(timeInputValue) - 1) Hd).
    split; [assumption | lia].
Qed.

Lemma time_keys_ok st ks : time_buffer_ok st -> time_buffer_ok (fold_left time_key ks st).
Proof.
  revert st. induction ks as [|k ks IH]; intros st H; simpl; [exact H|].
  apply IH, time_key_ok, H.
Qed.

Lemma time_keys_keep st ks :
  (fold_left time_key ks st).(selectedItems) = st.(selectedItems) /\
  (fold_left time_key ks st).(selectedPanelIndex) = st.(selectedPanelIndex).
Proof.
  revert st. induction ks as [|k ks IH]; intros st; simpl; [auto|].
  destruct (IH (time_key st k)) as [-> ->].
  destruct k as [d|]; simpl; [unfold appendTimeDigit; destruct (digit_regex d), (3 <=? _)%nat|];
    simpl; auto.
Qed.

Lemma digit_value_range c : is_digit c = true -> 0 <= digit_value c <= 9.
Proof.
  unfold is_digit, digit_value. intro H. apply andb_true_iff in H as [H1 H2].
  apply Nat.leb_le in H1, H2. lia.
Qed.

Lemma digits_value_bound s :
  all_digits s = true -> forall a, 0 <= a ->
  exists v, digits_value s (Some a) = Some v /\
            0 <= v < (a + 1) * 10 ^ Z.of_nat (String.length s).
Proof.
  induction s as [|c r IH]; simpl; intros Hs a Ha.
  - exists a. split; [reflexivity | lia].
  - apply andb_true_iff in Hs as [Hc Hr]. rewrite Hc.
    pose proof (digit_value_range c Hc).
    destruct (IH Hr (10 * a + digit_value c)) as (v & Hv & Hb); [lia|].
    exists v. split; [exact Hv|].
    change (Z.pow_pos 10 (Pos.of_succ_nat (String.length r)))
      with (10 ^ Z.of_nat (S (String.length r))).
    rewrite Nat2Z.inj_succ, Z.pow_succ_r by lia.
    assert (0 < 10 ^ Z.of_nat (String.length r)) by (apply Z.pow_pos_nonneg; lia).
    nia.
Qed.

Lemma parseInt10_digits s :
  all_digits s = true -> parseInt10 s = digits_value s None.
Proof.
  destruct s as [|c r]; [reflexivity|]. simpl. intro H.
  apply andb_true_iff in H as [Hc _].
  unfold is_digit in Hc. apply andb_true_iff in Hc as [H1 H2].
  assert (Hw : is_ws c = false).
  { apply Nat.leb_le in H1, H2.
    unfold is_ws. repeat (rewrite orb_false_iff; split); apply Nat.eqb_neq; lia. }
  unfold parseInt10. simpl. rewrite Hw.
  destruct (Ascii.eqb_spec c "-"%char) as [E|_]; [subst; vm_compute in H1; discriminate|].
  destruct (Ascii.eqb_spec c "+"%char) as [E|_]; [subst; vm_compute in H1; discriminate|].
  reflexivity.
Qed.

Lemma parse_buffer_bound s m :
  all_digits s = true -> (String.length s <= 3)%nat -> parseInt10 s = Some m ->
  0 <= m <= 999.
Proof.
  intros Hd Hl Hp. rewrite parseInt10_digits in Hp by exact Hd.
  destruct s as [|c r]; [discriminate|]. simpl in Hd, Hp, Hl.
  apply andb_true_iff in Hd as [Hc Hr]. rewrite Hc in Hp.
  pose proof (digit_value_range c Hc).
  destruct (digits_value_bound r Hr (digit_value c)) as (v & Hv & Hb); [lia|].
  rewrite Hv in Hp. injection Hp as <-.
  assert (10 ^ Z.of_nat (String.length r) <= 100).
  { replace 100 with (10 ^ 2) by reflexivity. apply Z.pow_le_mono_r; lia. }
  nia.
Qed.

Lemma startTimeEdit_ok st :
  st.(selectedItems) <> [] ->
  time_buffer_ok (startTimeEdit st) /\
  (startTimeEdit st).(selectedItems) = st.(selectedItems) /\
  (startTimeEdit st).(selectedPanelIndex) = st.(selectedPanelIndex).
Proof.
  intro H. unfold startTimeEdit.
  destruct (List.length st.(selectedItems) =? 0)%nat eqn:E.
  - apply Nat.eqb_eq, length_zero_iff_nil in E. contradiction.
  - unfold time_buffer_ok. simpl. repeat split; lia.
Qed.

Lemma confirmTimeEdit_items st :
  (confirmTimeEdit st).(selectedItems) =
  match parseInt10 st.(timeInputValue) with
  | Some m => if 1 <=? m then set_planned st.(selectedItems) st.(selectedPanelIndex) m
              else st.(selectedItems)
  | None => st.(selectedItems)
  end.
Proof.
  unfold confirmTimeEdit. destruct (parseInt10 st.(timeInputValue)) as [m|]; [|reflexivity].
  destruct (1 <=? m); reflexivity.
Qed.

(** [a[i] = v] inside the array. *)
Lemma set_nth_error {A} (l : list A) n v k :
  (n < List.length l)%nat ->
  nth_error (firstn n l ++ v :: skipn (S n) l) k =
  if Nat.eqb k n then Some v else nth_error l k.
Proof.
  revert n k. induction l as [|a r IH]; intros n k Hn; simpl in Hn; [lia|].
  destruct n as [|n].
  - destruct k; reflexivity.
  - destruct k as [|k]; [reflexivity|]. simpl. apply IH. lia.
Qed.

Lemma set_length {A} (l : list A) n v :
  (n < List.length l)%nat -> List.length (firstn n l ++ v :: skipn (S n) l) = List.length l.
Proof.
  intro H. rewrite length_app, length_firstn, length_cons, length_skipn. lia.
Qed.

Lemma js_set_in {A} (l : list (option A)) i v :
  0 <= i < Z.of_nat (List.length l) ->
  js_set l i v = firstn (Z.to_nat i) l ++ v :: skipn (S (Z.to_nat i)) l.
Proof.
  intro H. unfold js_set.
  replace (i <? 0) with false by (symmetry; apply Z.ltb_ge; lia).
  replace (Z.to_nat i <? List.length l)%nat with true by (symmetry; apply Nat.ltb_lt; lia).
  reflexivity.
Qed.

Lemma js_read_map {A} (l : list A) i :
  0 <= i -> js_read (map Some l) i = nth_error l (Z.to_nat i).
Proof.
  intro H. unfold js_read, js_get.
  replace (i <? 0) with false by (symmetry; apply Z.ltb_ge; lia).
  rewrite nth_error_map. destruct (nth_error l (Z.to_nat i)); reflexivity.
Qed.

Lemma neighbour_ne index d : neighbour index d <> index.
Proof. destruct d; simpl; lia. Qed.

Lemma moveItem_items_swap current index d :
  0 <= index < Z.of_nat (List.length current) ->
  0 <= neighbour index d < Z.of_nat (List.length current) ->
  List.length (moveItem_items current index d) = List.length current /\
  forall k, nth_error (moveItem_items current index d) k =
            option_map Some (nth_error current
              (if Nat.eqb k (Z.to_nat index) then Z.to_nat (neighbour index d)
               else if Nat.eqb k (Z.to_nat (neighbour index d)) then Z.to_nat index
               else k)).
Proof.
  intros HI HJ. pose proof (neighbour_ne index d) as Hne.
  unfold moveItem_items. cbv zeta.
  replace ((neighbour index d <? 0) || (Z.of_nat (List.length current) <=? neighbour index d))
    with false
    by (symmetry; apply orb_false_iff; split; [apply Z.ltb_ge | apply Z.leb_gt]; lia).
  rewrite !js_read_map by lia.
  assert (L : List.length (map Some current) = List.length current) by apply length_map.
  rewrite (js_set_in (map Some current) index) by lia.
  rewrite js_set_in by (rewrite set_length; lia).
  split.
  - rewrite !set_length; [lia | lia | rewrite set_length; lia].
  - intro k. rewrite set_nth_error by (rewrite set_length; lia).
    rewrite set_nth_error by lia. rewrite nth_error_map.
    destruct (Nat.eqb_spec k (Z.to_nat (neighbour index d))) as [E1|E1];
      destruct (Nat.eqb_spec k (Z.to_nat index)) as [E2|E2]; try lia.
    + destruct (nth_error current (Z.to_nat index)) eqn:E; [reflexivity|].
      apply nth_error_None in E. lia.
    + destruct (nth_error current (Z.to_nat (neighbour index d))) eqn:E; [reflexivity|].
      apply nth_error_None in E. lia.
    + reflexivity.
Qed.

(** Display ticks leave the model as it is. *)
Lemma ticks_keep m d ts :
  fold_left timer_step (map Tick ts) (m, d) =
  (m, snd (fold_left timer_step (map Tick ts) (m, d))).
Proof.
  revert d. induction ts as [|t ts IH]; intro d; [reflexivity|].
  simpl. destruct (practiceState m); apply IH.
Qed.

Lemma ticks_then m d ts rest :
  fold_left timer_step (map Tick ts ++ rest) (m, d) =
  fold_left timer_step rest (m, snd (fold_left timer_step (map Tick ts) (m, d))).
Proof. rewrite fold_left_app, ticks_keep. reflexivity. Qed.

Lemma map_filter_true {A B} (f : B -> bool) (g : A -> B) l :
  (forall x, f (g x) = true) -> filter f (map g l) = map g l.
Proof.
  intro H. induction l as [|x r IH]; simpl; [reflexivity|]. now rewrite H, IH.
Qed.

Lemma saveSession_create st today nsid fetched library :
  truthy_str st.(activeSessionId) = false -> st.(selectedItems) <> [] ->
  saveSession st today nsid fetched library =
  (createFullSession "Practice" today st.(selectedItems) nsid
     ++ [FetchSessions; FetchLogs nsid],
   loadSessionLogs (set_active st nsid) fetched library).
Proof.
  intros Hact Hne. unfold saveSession. rewrite Hact.
  destruct st.(selectedItems) eqn:E; [contradiction|]. reflexivity.
Qed.

Lemma filter_delete_removed orig cur :
  filter is_delete (delete_removed orig cur) = delete_removed orig cur.
Proof.
  induction orig as [|o r IH]; [reflexivity|].
  rewrite delete_removed_cons, filter_app, IH.
  destruct (_ && _); reflexivity.
Qed.

Lemma filter_create_delete_removed orig cur :
  filter is_create_log (delete_removed orig cur) = [].
Proof.
  induction orig as [|o r IH]; [reflexivity|].
  rewrite delete_removed_cons, filter_app, IH.
  destruct (_ && _); reflexivity.
Qed.

Lemma filter_delete_save_calls sel orig sid :
  filter is_delete (save_edit sel orig sid ++ [FetchSessions; FetchLogs sid]) =
  delete_removed orig (currentIds sel).
Proof.
  unfold save_edit. rewrite !filter_app, filter_delete_removed.
  rewrite filter_save_items_delete by auto. simpl. now rewrite !app_nil_r.
Qed.

Lemma create_count_save_calls sel orig sid :
  List.length (filter is_create_log (save_edit sel orig sid ++ [FetchSessions; FetchLogs sid])) =
  List.length (filter (fun it => negb (truthy_str it.(logId))) sel).
Proof.
  unfold save_edit. rewrite !filter_app, filter_create_delete_removed.
  rewrite !length_app, create_count_save_items. simpl. lia.
Qed.

Lemma delete_of_fetches s sid :
  filter (is_delete_of s) [FetchSessions; FetchLogs sid] = [].
Proof. reflexivity. Qed.

Lemma update_of_fetches s sid c :
  In c [FetchSessions; FetchLogs sid] -> is_update_of s c = false.
Proof. intros [<-|[<-|[]]]; reflexivity. Qed.

(* ================================================================== *)
(** * Claims *)

(** C1: on a persisted session (truthy active session id), the save issues
    an update for an entry with log id [s] (unique in the working set and in
    the baseline) exactly when its planned minutes differ from the baseline
    entry with the same log id or its position differs from that entry's
    baseline position; and a second save right after a save whose reload
    returned logs with distinct non-empty ids issues no create, update or
    delete. *)
Theorem save_update_iff_and_idempotent :
  (forall st today nsid fetched library i it s j o,
     truthy_str st.(activeSessionId) = true ->
     nth_error st.(selectedItems) i = Some it -> it.(logId) = Some s -> s <> ""%string ->
     (forall k it', nth_error st.(selectedItems) k = Some it' -> it'.(logId) = Some s -> k = i) ->
     nth_error st.(originalItems) j = Some o -> o.(logId) = Some s ->
     (forall k o', nth_error st.(originalItems) k = Some o' -> o'.(logId) = Some s -> k = j) ->
     ((exists c, In c (fst (saveSession st today nsid fetched library)) /\
                 is_update_of s c = true) <->
      (o.(plannedMinutes) <> it.(plannedMinutes) \/ j <> i))) /\
  (forall st today nsid fetched library calls st' today2 nsid2 fetched2,
     nsid <> ""%string ->
     NoDup (map pl_id fetched) -> Forall (fun l => l.(pl_id) <> ""%string) fetched ->
     saveSession st today nsid fetched library = (calls, st') ->
     forall c, In c (fst (saveSession st' today2 nsid2 fetched2 library)) ->
               is_write c = false).
Proof.
  split.
  - intros st today nsid fetched library i it s j o Hact Hi Hs Hne Hu Hj Ho Hju.
    rewrite saveSession_active by exact Hact.
    rewrite <- (save_update_iff _ _ (ref_of st.(activeSessionId)) i it s j o Hi Hs Hne Hu Hj Ho Hju).
    split; intros (c & Hc & Hup); exists c; split; try exact Hup.
    + apply in_app_or in Hc as [Hc|Hc]; [exact Hc|].
      rewrite (update_of_fetches s _ c Hc) in Hup. discriminate.
    + apply in_or_app. left. exact Hc.
  - exact save_twice_no_writes.
Qed.

Lemma save_update_iff_and_idempotent_witness :
  ((exists c, In c (fst (saveSession ex_edit "2026-01-01" "n1" ex_fetched ex_library)) /\
              is_update_of "lb" c = true) <->
   (10 <> 10 \/ 1%nat <> 0%nat)) /\
  (forall c, In c (fst (saveSession (snd (saveSession ex_edit "2026-01-01" "n1" ex_fetched ex_library))
                                    "2026-01-02" "n2" [] ex_library)) ->
             is_write c = false).
Proof.
  split.
  - apply (proj1 save_update_iff_and_idempotent ex_edit "2026-01-01"%string "n1"%string ex_fetched ex_library
             0%nat (mk_sel lib_b 10 (Some "lb"%string)) "lb"%string 1%nat (mk_sel lib_b 10 (Some "lb"%string)));
      try reflexivity; try discriminate.
    + intros [|[|k]] it' H E; simpl in H;
        [reflexivity | injection H as <-; discriminate E | destruct k; discriminate H].
    + intros [|[|k]] o' H E; simpl in H;
        [injection H as <-; discriminate E | reflexivity | destruct k; discriminate H].
  - apply (proj2 save_update_iff_and_idempotent ex_edit "2026-01-01"%string "n1"%string ex_fetched ex_library
             (fst (saveSession ex_edit "2026-01-01"%string "n1"%string ex_fetched ex_library)) _
             "2026-01-02"%string "n2"%string []).
    + discriminate.
    + repeat constructor; simpl; intuition discriminate.
    + repeat constructor; discriminate.
    + reflexivity.
Defined.

(** With no active session and a non-empty working set, the
    writes of a save are exactly one session creation, named "Practice"
    and dated [today], followed by one log creation per entry in
    working-set order, each referencing the new session, the entry's
    catalog item and its planned minutes; the log creations carry no
    order ([nl_order = None]), and the properties [createPracticeLog]
    sends are Name, Item, Session and Planned Time only. *)
Theorem saveSession_new_session st today nsid fetched library :
  truthy_str st.(activeSessionId) = false -> st.(selectedItems) <> [] ->
  filter is_write (fst (saveSession st today nsid fetched library)) =
    CreateSession "Practice" today ::
    map (fun it => CreateLog {| nl_name := it.(item).(li_name);
                                nl_itemId := it.(item).(li_id);
                                nl_sessionId := nsid;
                                nl_plannedTime := it.(plannedMinutes);
                                nl_order := None |}) st.(selectedItems) /\
  List.length (filter is_create_log (fst (saveSession st today nsid fetched library)))
    = List.length st.(selectedItems) /\
  (forall l, In (CreateLog l) (fst (saveSession st today nsid fetched library)) ->
             l.(nl_order) = None /\
             map fst (createPracticeLog_properties l) =
               ["Name"; "Item"; "Session"; "Planned Time (min)"]%string).
Proof.
  intros Hact Hne. rewrite saveSession_create by assumption. simpl fst.
  unfold createFullSession. split; [|split].
  - cbn [filter is_write]. rewrite filter_app, map_filter_true by reflexivity.
    cbn. now rewrite app_nil_r.
  - cbn [filter is_create_log]. rewrite filter_app, map_filter_true by reflexivity.
    cbn. now rewrite app_nil_r, length_map.
  - intros l Hl. split; [|reflexivity].
    apply in_inv in Hl as [Hl|Hl]; [discriminate|].
    apply in_app_or in Hl as [Hl|[Hl|[Hl|[]]]]; try discriminate.
    apply in_map_iff in Hl as (it & E & _). injection E as <-. reflexivity.
Qed.

(** C2: a one-entry save on a new session creates the log with no order:
    [createFullSession] passes none to [createPracticeLog], and even when
    given one [createPracticeLog] sends no Order property, while the edit
    branch of [saveSession] passes [order: i]. *)
Lemma saveSession_new_session_no_order :
  fst (saveSession ex_new "2026-01-01" "n1" [] ex_library) =
  [CreateSession "Practice" "2026-01-01";
   CreateLog {| nl_name := "a"; nl_itemId := "a"; nl_sessionId := "n1";
                nl_plannedTime := 5; nl_order := None |};
   FetchSessions; FetchLogs "n1"] /\
  existsb (String.eqb "order")
    (map fst (createPracticeLog_properties
                {| nl_name := "a"; nl_itemId := "a"; nl_sessionId := "n1";
                   nl_plannedTime := 5; nl_order := Some 0 |})) = false.
Proof. split; reflexivity. Qed.

Lemma saveSession_new_session_witness :
  filter is_write (fst (saveSession ex_new "2026-01-01" "n1" [] ex_library)) =
    [CreateSession "Practice" "2026-01-01";
     CreateLog {| nl_name := "a"; nl_itemId := "a"; nl_sessionId := "n1";
                  nl_plannedTime := 5; nl_order := None |}].
Proof.
  apply (saveSession_new_session ex_new "2026-01-01"%string "n1"%string [] ex_library);
    [reflexivity | discriminate].
Defined.

(** C3: on a save with an active session, a baseline log id [s] (the
    baseline's log ids being distinct) that is no longer among the working
    set's log ids yields exactly one [DeleteLog s]; and removing from the
    working set an entry with no log id leaves the deletes of the save as
    they were and takes away exactly one log creation, the entry's own. *)
Theorem save_delete_removed :
  (forall st today nsid fetched library s,
     truthy_str st.(activeSessionId) = true ->
     In (Some s) (map logId st.(originalItems)) -> NoDup (map logId st.(originalItems)) ->
     s <> ""%string -> ~ In s (currentIds st.(selectedItems)) ->
     List.length (filter (is_delete_of s) (fst (saveSession st today nsid fetched library)))
       = 1%nat) /\
  (forall st n x today nsid fetched library,
     truthy_str st.(activeSessionId) = true ->
     nth_error st.(selectedItems) n = Some x -> truthy_str x.(logId) = false ->
     filter is_delete (fst (saveSession (removeItem st (Z.of_nat n)) today nsid fetched library))
       = filter is_delete (fst (saveSession st today nsid fetched library)) /\
     S (List.length (filter is_create_log
          (fst (saveSession (removeItem st (Z.of_nat n)) today nsid fetched library))))
       = List.length (filter is_create_log (fst (saveSession st today nsid fetched library)))).
Proof.
  split.
  - intros st today nsid fetched library s Hact Hin Hnd Hne Hcur.
    rewrite saveSession_active by exact Hact.
    rewrite filter_app, length_app, delete_of_fetches.
    rewrite delete_count_save_edit by assumption. reflexivity.
  - intros st n x today nsid fetched library Hact Hn Hx.
    rewrite !saveSession_active by exact Hact. simpl.
    rewrite !filter_delete_save_calls, !create_count_save_calls.
    rewrite (remove_at_falsy_currentIds _ _ _ Hn Hx). split; [reflexivity|].
    exact (remove_at_falsy_count _ _ _ Hn Hx).
Qed.

Lemma save_delete_removed_witness :
  List.length (filter (is_delete_of "la")
                 (fst (saveSession ex_remove "2026-01-01" "n1" [] ex_library))) = 1%nat /\
  filter is_delete (fst (saveSession (removeItem ex_remove 1) "2026-01-01" "n1" [] ex_library))
    = filter is_delete (fst (saveSession ex_remove "2026-01-01" "n1" [] ex_library)) /\
  S (List.length (filter is_create_log
       (fst (saveSession (removeItem ex_remove 1) "2026-01-01" "n1" [] ex_library))))
    = List.length (filter is_create_log
        (fst (saveSession ex_remove "2026-01-01" "n1" [] ex_library))).
Proof.
  split.
  - apply (proj1 save_delete_removed ex_remove "2026-01-01"%string "n1"%string [] ex_library
             "la"%string).
    + reflexivity.
    + simpl. left. reflexivity.
    + repeat constructor; simpl; intuition discriminate.
    + discriminate.
    + simpl. intuition discriminate.
  - apply (proj2 save_delete_removed ex_remove 1%nat (mk_sel lib_c 5 None)
             "2026-01-01"%string "n1"%string [] ex_library); reflexivity.
Defined.

(** C4: loading a session replaces the working set with one entry per
    fetched log whose catalog item resolves in the library, in fetched
    order (log id, item, planned minutes with the default 5 and actual
    minutes taken from the log), drops the others, replaces the baseline
    with the same list, and the result does not depend on the previous
    working set or baseline. *)
Theorem loadSessionLogs_spec st logs library :
  Forall2 (fun it log =>
             it.(logId) = Some log.(pl_id) /\
             find_library_item library log = Some it.(item) /\
             it.(plannedMinutes) = planned_or_default log.(pl_plannedTime) /\
             it.(actualMinutes) = log.(pl_actualTime))
          (loadSessionLogs st logs library).(selectedItems)
          (filter (resolvable library) logs) /\
  (loadSessionLogs st logs library).(originalItems)
    = (loadSessionLogs st logs library).(selectedItems) /\
  (loadSessionLogs st logs library).(selectedPanelIndex) = 0 /\
  (forall st0, (loadSessionLogs st0 logs library).(selectedItems)
                 = (loadSessionLogs st logs library).(selectedItems) /\
               (loadSessionLogs st0 logs library).(originalItems)
                 = (loadSessionLogs st logs library).(originalItems)).
Proof.
  split; [apply build_items_spec|].
  split; [reflexivity|]. split; [reflexivity|].
  intro st0. split; reflexivity.
Qed.

(** C5: [togglePause] from running adds [now - startTime] to the
    accumulated time and pauses, from paused restarts the segment at [now]
    and resumes, and the toggle does nothing without a practice run; and
    for a run started at [t0] on an entry with no actual minutes, the
    events pause at [t1], resume at [t2], pause at [t3], with any display
    ticks before, between and after them, leave an accumulated time of
    [(t1 - t0) + (t3 - t2)] milliseconds, paused. *)
Theorem timer_segments :
  (forall p now, p.(isPaused) = false ->
     (togglePause p now).(accumulatedMs) = (p.(accumulatedMs) + inject_Z (now - p.(startTime)))%Q /\
     (togglePause p now).(isPaused) = true) /\
  (forall p now, p.(isPaused) = true ->
     (togglePause p now).(startTime) = now /\
     (togglePause p now).(accumulatedMs) = p.(accumulatedMs) /\
     (togglePause p now).(isPaused) = false) /\
  (forall m now, m.(practiceState) = None -> togglePausePractice m now = m) /\
  (forall m idx it t0 t1 t2 t3 d0 ts0 ts1 ts2 ts3,
     js_get m.(editor).(selectedItems) idx = Some it -> it.(actualMinutes) = None ->
     match (fst (run_timer (startPractice m idx t0, d0)
                   (map Tick ts0 ++ Toggle t1 :: map Tick ts1 ++ Toggle t2 ::
                    map Tick ts2 ++ Toggle t3 :: map Tick ts3))).(practiceState) with
     | Some p => (p.(accumulatedMs) == inject_Z (t1 - t0) + inject_Z (t3 - t2))%Q /\
                 p.(isPaused) = true
     | None => False
     end).
Proof.
  split; [|split; [|split]].
  - intros p now H. unfold togglePause. rewrite H. split; reflexivity.
  - intros p now H. unfold togglePause. rewrite H. repeat split.
  - intros m now H. unfold togglePausePractice. rewrite H. reflexivity.
  - intros m idx it t0 t1 t2 t3 d0 ts0 ts1 ts2 ts3 Hit Ha.
    unfold run_timer. rewrite ticks_then. simpl fold_left.
    rewrite ticks_then. simpl fold_left.
    rewrite ticks_then. simpl fold_left.
    rewrite ticks_keep. simpl.
    rewrite Hit. simpl. rewrite Ha. split; [ring | reflexivity].
Qed.

Lemma timer_segments_witness :
  match (fst (run_timer (startPractice ex_browse 0 1000, 0%Q)
                (map Tick [1100; 1200] ++ Toggle 4000 :: map Tick [] ++ Toggle 10000 ::
                 map Tick [10100] ++ Toggle 12500 :: map Tick [12600]))).(practiceState) with
  | Some p => (p.(accumulatedMs) == inject_Z (4000 - 1000) + inject_Z (12500 - 10000))%Q /\
              p.(isPaused) = true
  | None => False
  end.
Proof.
  apply (proj2 (proj2 (proj2 timer_segments)) ex_browse 0 (mk_sel lib_a 5 None));
    reflexivity.
Defined.

(** C6: confirming a practice run on an entry with no (truthy) log id is
    [cancelPractice] and issues no call; on an entry with log id [s] in a
    session [sid], it issues exactly one update of [s] whose only field is
    the actual time [accumulatedMs / 60000] minutes, then, when that update
    succeeds, reloads the session's logs; the practice run is gone
    afterwards and the app is back in browse (in error when the update
    fails). *)
Theorem confirmSavePractice_spec m p it ok fetched library :
  m.(practiceState) = Some p ->
  js_get m.(editor).(selectedItems) p.(itemIndex) = Some it ->
  (truthy_str it.(logId) = false ->
   confirmSavePractice m ok fetched library = ([], cancelPractice m)) /\
  (forall s sid, it.(logId) = Some s -> s <> ""%string ->
     m.(editor).(activeSessionId) = Some sid -> sid <> ""%string ->
     confirmSavePractice m ok fetched library =
     (UpdateLog s {| up_plannedTime := None; up_order := None;
                     up_actualTime := Some (p.(accumulatedMs) / inject_Z 60000)%Q |}
        :: (if ok then [FetchLogs sid] else []),
      {| editor := if ok then loadSessionLogs m.(editor) fetched library else m.(editor);
         practiceState := None;
         appState := if ok then Browse else Error |})).
Proof.
  intros Hp Hit. unfold confirmSavePractice. rewrite Hp. cbv beta iota.
  rewrite Hit. cbv beta iota. split.
  - intro T. rewrite T. reflexivity.
  - intros s sid Hs Hne Ha Hne'.
    rewrite Hs, (truthy_some s Hne), Ha, (truthy_some sid Hne').
    destruct ok; reflexivity.
Qed.

Lemma confirmSavePractice_spec_witness :
  confirmSavePractice (ex_practice None) true [] ex_library
    = ([], cancelPractice (ex_practice None)) /\
  confirmSavePractice (ex_practice (Some "la"%string)) true [] ex_library =
    ([UpdateLog "la" {| up_plannedTime := None; up_order := None;
                        up_actualTime := Some (inject_Z 90000 / inject_Z 60000)%Q |};
      FetchLogs "s1"],
     {| editor := loadSessionLogs (ex_practice (Some "la"%string)).(editor) [] ex_library;
        practiceState := None; appState := Browse |}).
Proof.
  split.
  - apply (proj1 (confirmSavePractice_spec (ex_practice None)
             {| itemIndex := 0; startTime := 1000; accumulatedMs := inject_Z 90000;
                isPaused := true; isConfirming := true |}
             (mk_sel lib_a 5 None) true [] ex_library eq_refl eq_refl)).
    reflexivity.
  - apply (proj2 (confirmSavePractice_spec (ex_practice (Some "la"%string))
             {| itemIndex := 0; startTime := 1000; accumulatedMs := inject_Z 90000;
                isPaused := true; isConfirming := true |}
             (mk_sel lib_a 5 (Some "la"%string)) true [] ex_library eq_refl eq_refl)
             "la"%string "s1"%string); first [reflexivity | discriminate].
Defined.

(** C7 (amended): after [startTimeEdit] on a non-empty working set and any
    sequence of digit and Backspace keys, the input holds at most three
    decimal digits (a fourth digit or a non-digit key is ignored, so the
    keys 1, 0, 0, 0 leave "100"); confirming then writes the parsed value
    [m], which lies in 0..999, as the planned minutes of the entry under the
    cursor when [m >= 1], and leaves the working set unchanged when the
    input is empty or parses to 0. *)
Theorem exact_duration_input st ks :
  st.(selectedItems) <> [] ->
  all_digits (fold_left time_key ks (startTimeEdit st)).(timeInputValue) = true /\
  (String.length (fold_left time_key ks (startTimeEdit st)).(timeInputValue) <= 3)%nat /\
  match parseInt10 (fold_left time_key ks (startTimeEdit st)).(timeInputValue) with
  | Some m => 0 <= m <= 999 /\
              (confirmTimeEdit (fold_left time_key ks (startTimeEdit st))).(selectedItems) =
              (if 1 <=? m then set_planned st.(selectedItems) st.(selectedPanelIndex) m
               else st.(selectedItems))
  | None => (confirmTimeEdit (fold_left time_key ks (startTimeEdit st))).(selectedItems)
            = st.(selectedItems)
  end.
Proof.
  intro Hne. destruct (startTimeEdit_ok st Hne) as (Hok & Hitems & Hpanel).
  destruct (time_keys_ok _ ks Hok) as [Hd Hl].
  destruct (time_keys_keep (startTimeEdit st) ks) as [Ki Kp].
  split; [exact Hd|]. split; [exact Hl|].
  rewrite confirmTimeEdit_items, Ki, Kp, Hitems, Hpanel.
  destruct (parseInt10 _) as [m|] eqn:P; [|reflexivity].
  split; [exact (parse_buffer_bound _ m Hd Hl P) | reflexivity].
Qed.

(** C7: the keys 1, 0, 0, 0 set the entry to 100 minutes instead of
    leaving its 5 minutes. *)
Lemma exact_duration_1000_sets_100 :
  map plannedMinutes (confirmTimeEdit (fold_left time_key keys_1000 (startTimeEdit ex_new))).(selectedItems)
    = [100] /\
  map plannedMinutes ex_new.(selectedItems) = [5].
Proof. split; reflexivity. Qed.

Lemma exact_duration_input_witness :
  all_digits (fold_left time_key keys_1000 (startTimeEdit ex_new)).(timeInputValue) = true /\
  (String.length (fold_left time_key keys_1000 (startTimeEdit ex_new)).(timeInputValue) <= 3)%nat /\
  match parseInt10 (fold_left time_key keys_1000 (startTimeEdit ex_new)).(timeInputValue) with
  | Some m => 0 <= m <= 999 /\
              (confirmTimeEdit (fold_left time_key keys_1000 (startTimeEdit ex_new))).(selectedItems) =
              (if 1 <=? m then set_planned ex_new.(selectedItems) ex_new.(selectedPanelIndex) m
               else ex_new.(selectedItems))
  | None => (confirmTimeEdit (fold_left time_key keys_1000 (startTimeEdit ex_new))).(selectedItems)
            = ex_new.(selectedItems)
  end.
Proof. apply (exact_duration_input ex_new keys_1000). discriminate. Defined.

(** For an index inside the working set, [moveItem] leaves
    the working set as it is when the neighbour in the given direction is
    outside the list, and otherwise swaps the entries at the index and its
    neighbour, keeping the length and every other entry.  The cursor moves
    one step in the given direction from its own position when that stays
    inside the list, whatever the index: it follows the moved item when it
    was on it (the only call site passes the cursor as index), and it
    stays put at a boundary only in that case. *)
Theorem moveItem_spec st index d :
  0 <= index < Z.of_nat (List.length st.(selectedItems)) ->
  (if (neighbour index d <? 0) ||
      (Z.of_nat (List.length st.(selectedItems)) <=? neighbour index d)
   then fst (moveItem st index d) = map Some st.(selectedItems)
   else List.length (fst (moveItem st index d)) = List.length st.(selectedItems) /\
        forall k, nth_error (fst (moveItem st index d)) k =
                  option_map Some (nth_error st.(selectedItems)
                    (if Nat.eqb k (Z.to_nat index) then Z.to_nat (neighbour index d)
                     else if Nat.eqb k (Z.to_nat (neighbour index d)) then Z.to_nat index
                     else k))) /\
  snd (moveItem st index d) =
    (if (neighbour st.(selectedPanelIndex) d <? 0) ||
        (Z.of_nat (List.length st.(selectedItems)) <=? neighbour st.(selectedPanelIndex) d)
     then st.(selectedPanelIndex) else neighbour st.(selectedPanelIndex) d).
Proof.
  intro HI. split; [|reflexivity].
  destruct ((neighbour index d <? 0) ||
            (Z.of_nat (List.length st.(selectedItems)) <=? neighbour index d)) eqn:B.
  - simpl. unfold moveItem_items. cbv zeta. rewrite B. reflexivity.
  - apply orb_false_iff in B as [B1 B2]. apply Z.ltb_ge in B1. apply Z.leb_gt in B2.
    apply moveItem_items_swap; lia.
Qed.

(** C8: with the cursor on the second of three entries, moving the first
    entry up changes nothing in the list but moves the cursor to 0, and
    moving it down puts it at position 1 while the cursor goes to 2: the
    cursor update starts from the cursor, not from [index], so it follows
    the item only when the two coincide. *)
Lemma moveItem_cursor_not_following :
  fst (moveItem ex_three 0 Up) = map Some ex_three.(selectedItems) /\
  snd (moveItem ex_three 0 Up) = 0 /\
  ex_three.(selectedPanelIndex) = 1 /\
  nth_error (fst (moveItem ex_three 0 Down)) 1 = Some (Some (mk_sel lib_a 5 None)) /\
  snd (moveItem ex_three 0 Down) = 2.
Proof. repeat split. Qed.

Lemma moveItem_spec_witness :
  List.length (fst (moveItem ex_three 1 Down)) = 3%nat /\
  (forall k, nth_error (fst (moveItem ex_three 1 Down)) k =
             option_map Some (nth_error ex_three.(selectedItems)
               (if Nat.eqb k 1 then 2%nat else if Nat.eqb k 2 then 1%nat else k))).
Proof.
  apply (proj1 (moveItem_spec ex_three 1 Down ltac:(simpl; lia))).
Defined.

(** C9: an Escape key in browse moves the focus to the library list from
    the session picker, the list and the selected panel, but leaves it on
    the search input when the search input has it: neither the dispatcher
    nor the search handler reacts to Escape there. *)
Theorem dispatch_escape f n ctrl shift :
  dispatch_focus f n {| kname := "escape"; kctrl := ctrl; kshift := shift |} =
  if focus_eqb f FSearch then FSearch else FList.
Proof. destruct f, ctrl; reflexivity. Qed.

(** C10: toggling a catalog item twice gives back a working set without
    it; with the item present, the result drops its entry and appends a
    fresh one (5 minutes, no log id) at the end; and if that entry had log
    id [s], present in the baseline, the next save of the session deletes
    [s] once and creates a new log for the item with 5 minutes. *)
Theorem toggle_twice :
  (forall W x, ~ In x.(li_id) (map (fun s => s.(item).(li_id)) W) ->
     toggleItem (toggleItem W x) x = W) /\
  (forall W x, In x.(li_id) (map (fun s => s.(item).(li_id)) W) ->
     toggleItem (toggleItem W x) x =
     filter (fun s => negb (same_item x s)) W ++ [fresh_entry x]) /\
  (forall st x y s today nsid fetched library,
     truthy_str st.(activeSessionId) = true ->
     In y st.(selectedItems) -> same_item x y = true -> y.(logId) = Some s ->
     s <> ""%string ->
     (forall y', In y' st.(selectedItems) -> y'.(logId) = Some s -> same_item x y' = true) ->
     In (Some s) (map logId st.(originalItems)) -> NoDup (map logId st.(originalItems)) ->
     List.length (filter (is_delete_of s)
       (fst (saveSession (set_items st (toggleItem (toggleItem st.(selectedItems) x) x))
                         today nsid fetched library))) = 1%nat /\
     exists i, In (CreateLog {| nl_name := x.(li_name); nl_itemId := x.(li_id);
                                nl_sessionId := ref_of st.(activeSessionId);
                                nl_plannedTime := 5; nl_order := Some i |})
                  (fst (saveSession (set_items st (toggleItem (toggleItem st.(selectedItems) x) x))
                                    today nsid fetched library))).
Proof.
  split; [exact toggle_twice_absent|]. split; [exact toggle_twice_present|].
  intros st x y s today nsid fetched library Hact Hy Hxy Hs Hne Honly Hin Hnd.
  assert (Hpres : In x.(li_id) (map (fun s => s.(item).(li_id)) st.(selectedItems))).
  { apply existsb_same_item, existsb_exists. eauto. }
  rewrite (toggle_twice_present _ _ Hpres).
  rewrite saveSession_active by exact Hact. simpl selectedItems. simpl originalItems.
  simpl activeSessionId. split.
  - rewrite filter_app, length_app, delete_of_fetches.
    rewrite delete_count_save_edit by
      (try assumption; rewrite currentIds_app, app_nil_r; intro Hc;
       apply in_currentIds in Hc as (y' & Hy' & Hy's);
       apply filter_In in Hy' as [Hy' Hneg];
       rewrite (Honly y' Hy' Hy's) in Hneg; discriminate).
    reflexivity.
  - set (F := filter (fun s => negb (same_item x s)) st.(selectedItems)).
    exists (0 + Z.of_nat (List.length F)).
    apply in_or_app. left. unfold save_edit. apply in_or_app. right.
    apply in_save_items. exists (List.length F), (fresh_entry x). split.
    + rewrite nth_error_app2 by lia. rewrite Nat.sub_diag. reflexivity.
    + left. reflexivity.
Qed.

Lemma toggle_twice_witness :
  List.length (filter (is_delete_of "la")
    (fst (saveSession (set_items ex_loaded (toggleItem (toggleItem ex_loaded.(selectedItems) lib_a) lib_a))
                      "2026-01-01" "n1" [] ex_library))) = 1%nat /\
  exists i, In (CreateLog {| nl_name := "a"; nl_itemId := "a"; nl_sessionId := "s1";
                             nl_plannedTime := 5; nl_order := Some i |})
               (fst (saveSession (set_items ex_loaded (toggleItem (toggleItem ex_loaded.(selectedItems) lib_a) lib_a))
                                 "2026-01-01" "n1" [] ex_library)).
Proof.
  apply (proj2 (proj2 toggle_twice) ex_loaded lib_a (mk_sel lib_a 7 (Some "la"%string))
           "la"%string "2026-01-01"%string "n1"%string [] ex_library).
  - reflexivity.
  - simpl. left. reflexivity.
  - reflexivity.
  - reflexivity.
  - discriminate.
  - intros y' [<-|[<-|[]]] E; [reflexivity | discriminate E].
  - simpl. left. reflexivity.
  - repeat constructor; simpl; intuition discriminate.
Defined.

(* ================================================================== *)
(** * Further properties of the code *)

(** ** Lemmas *)

Lemma js_get_some {A} (l : list A) i x :
  js_get l i = Some x -> 0 <= i /\ nth_error l (Z.to_nat i) = Some x.
Proof.
  unfold js_get. destruct (Z.ltb_spec i 0); [discriminate|]. auto.
Qed.

Lemma set_planned_nat_length l n m :
  List.length (set_planned_nat l n m) = List.length l.
Proof.
  revert n. induction l as [|x r IH]; intros [|n]; simpl; auto.
Qed.

Lemma set_planned_nat_nth l n m k :
  nth_error (set_planned_nat l n m) k =
  if Nat.eqb k n
  then option_map (fun x => {| item := x.(item); plannedMinutes := m;
                               actualMinutes := x.(actualMinutes); logId := x.(logId) |})
                  (nth_error l k)
  else nth_error l k.
Proof.
  revert n k. induction l as [|x r IH]; intros n k.
  - simpl. destruct (Nat.eqb k n); destruct k; reflexivity.
  - destruct n as [|n], k as [|k]; simpl; try reflexivity. apply IH.
Qed.

Lemma set_planned_nat_ok l n m :
  planned_ok l -> 1 <= m -> planned_ok (set_planned_nat l n m).
Proof.
  unfold planned_ok. revert n. induction l as [|x r IH]; intros n Hl Hm; [constructor|].
  inversion Hl as [|? ? Hx Hr]; subst. destruct n as [|n]; simpl.
  - constructor; assumption.
  - constructor; [assumption | apply IH; assumption].
Qed.

Lemma Forall_firstn_skipn {A} (P : A -> Prop) l n :
  Forall P l -> Forall P (firstn n l) /\ Forall P (skipn n l).
Proof.
  revert n. induction l as [|a r IH]; intros [|n] H; simpl; auto.
  inversion H as [|? ? Ha Hr]; subst. destruct (IH n Hr). auto.
Qed.

Lemma remove_at_incl {A} (l : list A) i x : In x (remove_at l i) -> In x l.
Proof.
  revert i. induction l as [|y r IH]; intros i; simpl; [contradiction|].
  destruct (i =? 0); [intro H; right; eapply IH; exact H|].
  intros [<-|H]; [left; reflexivity | right; eapply IH; exact H].
Qed.

Lemma remove_at_zero {A} (a : A) r : remove_at (a :: r) 0 = r.
Proof. simpl. apply remove_at_neg. lia. Qed.

Lemma remove_at_length {A} (l : list A) n :
  (n < List.length l)%nat -> List.length (remove_at l (Z.of_nat n)) = pred (List.length l).
Proof.
  revert n. induction l as [|a r IH]; intros n H; simpl in H; [lia|].
  destruct n as [|n].
  - rewrite remove_at_zero. reflexivity.
  - rewrite remove_at_succ. simpl. rewrite IH by lia. destruct r; simpl in *; lia.
Qed.

Lemma remove_at_nth {A} (l : list A) n k :
  (n < List.length l)%nat ->
  nth_error (remove_at l (Z.of_nat n)) k = nth_error l (if (k <? n)%nat then k else S k).
Proof.
  revert n k. induction l as [|a r IH]; intros n k H; simpl in H; [lia|].
  destruct n as [|n].
  - rewrite remove_at_zero. destruct k; reflexivity.
  - rewrite remove_at_succ. destruct k as [|k]; [reflexivity|].
    change ((S k <? S n)%nat) with ((k <? n)%nat).
    transitivity (nth_error (remove_at r (Z.of_nat n)) k); [reflexivity|].
    rewrite IH by lia. destruct (k <? n)%nat; reflexivity.
Qed.

Lemma total_acc l a :
  fold_left (fun sum s => sum + s.(plannedMinutes)) l a = a + totalMinutes l.
Proof.
  unfold totalMinutes. revert a. induction l as [|x r IH]; intro a; simpl; [lia|].
  rewrite (IH (a + x.(plannedMinutes))), (IH (x.(plannedMinutes))). lia.
Qed.

Lemma totalMinutes_cons x r : totalMinutes (x :: r) = x.(plannedMinutes) + totalMinutes r.
Proof. unfold totalMinutes at 1. simpl. rewrite total_acc. lia. Qed.

Lemma totalMinutes_app l r : totalMinutes (l ++ r) = totalMinutes l + totalMinutes r.
Proof. unfold totalMinutes at 1. rewrite fold_left_app, total_acc. reflexivity. Qed.

Lemma totalMinutes_remove l n x :
  nth_error l n = Some x -> totalMinutes (remove_at l (Z.of_nat n)) = totalMinutes l - x.(plannedMinutes).
Proof.
  revert n. induction l as [|a r IH]; intros n H; [destruct n; discriminate|].
  destruct n as [|n].
  - injection H as <-. rewrite remove_at_zero, totalMinutes_cons. lia.
  - rewrite remove_at_succ, !totalMinutes_cons, (IH n H). lia.
Qed.

Lemma totalMinutes_set l n x m :
  nth_error l n = Some x ->
  totalMinutes (set_planned_nat l n m) = totalMinutes l - x.(plannedMinutes) + m.
Proof.
  revert n. induction l as [|a r IH]; intros n H; [destruct n; discriminate|].
  destruct n as [|n]; simpl set_planned_nat; rewrite !totalMinutes_cons.
  - injection H as <-. simpl. lia.
  - rewrite (IH n H). lia.
Qed.

(** ** Session editor *)

(** X1: [adjustTime(index, delta)] leaves the working set as it is when
    [index] is outside it; otherwise it keeps the length and every other
    entry and sets the entry's planned minutes to
    [max 1 (planned + delta)], keeping its item, actual minutes and log id. *)
Theorem adjustTime_spec current index delta :
  (js_get current index = None -> adjustTime current index delta = current) /\
  (forall it, js_get current index = Some it ->
     List.length (adjustTime current index delta) = List.length current /\
     js_get (adjustTime current index delta) index =
       Some {| item := it.(item); plannedMinutes := Z.max 1 (it.(plannedMinutes) + delta);
               actualMinutes := it.(actualMinutes); logId := it.(logId) |} /\
     forall j, j <> index -> js_get (adjustTime current index delta) j = js_get current j).
Proof.
  split.
  - intro H. unfold adjustTime. rewrite H. reflexivity.
  - intros it H. unfold adjustTime. rewrite H.
    destruct (js_get_some _ _ _ H) as [Hi Hn].
    split; [apply set_planned_nat_length|]. split.
    + unfold js_get. replace (index <? 0) with false by (symmetry; apply Z.ltb_ge; lia).
      rewrite set_planned_nat_nth, Nat.eqb_refl, Hn. reflexivity.
    + intros j Hj. unfold js_get. destruct (Z.ltb_spec j 0); [reflexivity|].
      rewrite set_planned_nat_nth.
      replace (Nat.eqb (Z.to_nat j) (Z.to_nat index)) with false
        by (symmetry; apply Nat.eqb_neq; lia).
      reflexivity.
Qed.

(** X2: if every entry of the working set has at least 1 planned minute,
    so does every entry after [adjustTime] (any index and delta),
    [toggleItem], [removeItem]'s filter, [confirmTimeEdit] and [moveItem]
    (whose array may hold holes, which carry no entry). *)
Theorem planned_at_least_one W :
  planned_ok W ->
  (forall index delta, planned_ok (adjustTime W index delta)) /\
  (forall x, planned_ok (toggleItem W x)) /\
  (forall index, planned_ok (remove_at W index)) /\
  (forall st, st.(selectedItems) = W -> planned_ok (confirmTimeEdit st).(selectedItems)) /\
  (forall st index d, st.(selectedItems) = W ->
     Forall (fun o => match o with Some s => 1 <= s.(plannedMinutes) | None => True end)
            (fst (moveItem st index d))).
Proof.
  intro HW. split; [|split; [|split; [|split]]].
  - intros index delta. unfold adjustTime. destruct (js_get W index); [|exact HW].
    apply set_planned_nat_ok; [exact HW | lia].
  - intro x. unfold toggleItem. destruct (existsb _ W).
    + unfold planned_ok in *. rewrite Forall_forall in *. intros s Hs.
      apply filter_In in Hs as [Hs _]. exact (HW s Hs).
    + apply Forall_app. split; [exact HW|]. repeat constructor. simpl. lia.
  - intro index. unfold planned_ok in *. rewrite Forall_forall in *.
    intros s Hs. exact (HW s (remove_at_incl _ _ _ Hs)).
  - intros st <-. rewrite confirmTimeEdit_items.
    destruct (parseInt10 _) as [m|]; [|exact HW].
    destruct (Z.leb_spec 1 m); [|exact HW].
    unfold set_planned. destruct (js_get _ _); [|exact HW].
    apply set_planned_nat_ok; assumption.
  - intros st index d <-. set (P := fun o : option SelectedItem =>
                                     match o with Some s => 1 <= s.(plannedMinutes) | None => True end).
    assert (Hm : Forall P (map Some st.(selectedItems))).
    { apply Forall_map. exact HW. }
    assert (Hr : forall l i, Forall P l -> P (js_read l i)).
    { intros l i Hl. unfold js_read. destruct (js_get l i) as [o|] eqn:E; [|exact I].
      apply js_get_some in E as [_ E]. apply nth_error_In in E.
      rewrite Forall_forall in Hl. exact (Hl o E). }
    assert (Hs : forall l i v, Forall P l -> P v -> Forall P (js_set l i v)).
    { intros l i v Hl Hv. unfold js_set. destruct (i <? 0); [exact Hl|].
      destruct (_ <? _)%nat.
      - apply Forall_app. split; [apply (Forall_firstn_skipn P l _ Hl)|].
        constructor; [exact Hv | apply (Forall_firstn_skipn P l _ Hl)].
      - apply Forall_app. split; [exact Hl|]. apply Forall_app. split; [|repeat constructor; exact Hv].
        apply Forall_forall. intros o Ho. apply repeat_spec in Ho. subst. exact I. }
    simpl. unfold moveItem_items. cbv zeta. destruct (_ || _); [exact Hm|].
    apply Hs; [apply Hs; [exact Hm | apply Hr; exact Hm] | apply Hr; exact Hm].
Qed.

Lemma planned_at_least_one_witness :
  planned_ok (adjustTime ex_three.(selectedItems) 0 (-10)) /\
  planned_ok (confirmTimeEdit (fold_left time_key [TDigit "0"] (startTimeEdit ex_three))).(selectedItems).
Proof.
  assert (H : planned_ok ex_three.(selectedItems)) by (repeat constructor; simpl; lia).
  split.
  - exact (proj1 (planned_at_least_one _ H) 0 (-10)).
  - apply (proj1 (proj2 (proj2 (proj2 (planned_at_least_one _ H))))). reflexivity.
Defined.

(** X3: [totalMinutes] is the sum of the planned minutes: toggling in an
    item that is not in the working set adds 5, removing the entry at an
    index inside the working set subtracts its planned minutes, and
    [adjustTime] at such an index replaces its planned minutes [p] by
    [max 1 (p + delta)] in the sum. *)
Theorem totalMinutes_edits W x index :
  (~ In x.(li_id) (map (fun s => s.(item).(li_id)) W) ->
   totalMinutes (toggleItem W x) = totalMinutes W + 5) /\
  (forall it, js_get W index = Some it ->
   totalMinutes (remove_at W index) = totalMinutes W - it.(plannedMinutes)) /\
  (forall it delta, js_get W index = Some it ->
   totalMinutes (adjustTime W index delta) =
   totalMinutes W - it.(plannedMinutes) + Z.max 1 (it.(plannedMinutes) + delta)).
Proof.
  split; [|split].
  - intro H. rewrite toggleItem_eq.
    destruct (existsb (same_item x) W) eqn:E.
    + apply existsb_same_item in E. contradiction.
    + rewrite totalMinutes_app, totalMinutes_cons. change (totalMinutes []) with 0.
      unfold fresh_entry. cbn [plannedMinutes]. lia.
  - intros it H. destruct (js_get_some _ _ _ H) as [Hi Hn].
    rewrite <- (Z2Nat.id index Hi). apply totalMinutes_remove. exact Hn.
  - intros it delta H. unfold adjustTime. rewrite H.
    destruct (js_get_some _ _ _ H) as [Hi Hn]. apply totalMinutes_set. exact Hn.
Qed.

Lemma totalMinutes_edits_witness :
  totalMinutes (toggleItem ex_new.(selectedItems) lib_b) = totalMinutes ex_new.(selectedItems) + 5 /\
  totalMinutes (remove_at ex_three.(selectedItems) 1) = totalMinutes ex_three.(selectedItems) - 5.
Proof.
  split.
  - apply (proj1 (totalMinutes_edits ex_new.(selectedItems) lib_b 0)).
    simpl. intuition discriminate.
  - apply (proj1 (proj2 (totalMinutes_edits ex_three.(selectedItems) lib_b 1)) (mk_sel lib_b 5 None)).
    reflexivity.
Defined.

(** X4: [removeItem(index)] with [index] inside the working set removes
    exactly that entry (the list is one shorter, the entries before it keep
    their positions and the ones after it move up by one), and the cursor
    afterwards is non-negative and points at an entry of the new working
    set unless that set is empty. *)
Theorem removeItem_spec st index :
  0 <= index < Z.of_nat (List.length st.(selectedItems)) ->
  List.length (removeItem st index).(selectedItems) = pred (List.length st.(selectedItems)) /\
  (forall k, nth_error (removeItem st index).(selectedItems) k =
             nth_error st.(selectedItems) (if (k <? Z.to_nat index)%nat then k else S k)) /\
  0 <= (removeItem st index).(selectedPanelIndex) /\
  ((removeItem st index).(selectedPanelIndex)
     < Z.of_nat (List.length (removeItem st index).(selectedItems))
   \/ (removeItem st index).(selectedItems) = []).
Proof.
  intro H. simpl. rewrite <- (Z2Nat.id index) by lia.
  assert (Hn : (Z.to_nat index < List.length st.(selectedItems))%nat) by lia.
  rewrite (remove_at_length _ _ Hn). split; [reflexivity|].
  split; [intro k; rewrite Nat2Z.id; apply remove_at_nth; exact Hn|].
  split; [lia|].
  destruct (Nat.eq_dec (List.length st.(selectedItems)) 1) as [E|E].
  - right. pose proof (remove_at_length _ _ Hn) as L.
    destruct (remove_at _ _); [reflexivity | simpl in L; lia].
  - left. lia.
Qed.

Lemma removeItem_spec_witness :
  List.length (removeItem ex_three 1).(selectedItems) = 2%nat /\
  (forall k, nth_error (removeItem ex_three 1).(selectedItems) k =
             nth_error ex_three.(selectedItems) (if (k <? 1)%nat then k else S k)) /\
  0 <= (removeItem ex_three 1).(selectedPanelIndex) /\
  ((removeItem ex_three 1).(selectedPanelIndex)
     < Z.of_nat (List.length (removeItem ex_three 1).(selectedItems))
   \/ (removeItem ex_three 1).(selectedItems) = []).
Proof. apply (removeItem_spec ex_three 1). simpl. lia. Defined.

(** ** Keyboard handlers of the browse screen *)

Lemma in_delete_removed_intro orig cur o :
  In o orig -> truthy_str o.(logId) = true -> mem_str (ref_of o.(logId)) cur = false ->
  In (DeleteLog (ref_of o.(logId))) (delete_removed orig cur).
Proof.
  intros Ho T M. unfold delete_removed. apply in_flat_map. exists o.
  split; [exact Ho|]. rewrite T, M. left. reflexivity.
Qed.

Lemma key_name_cases (k : KeyEvent) (a b : string) :
  (key_is k a || key_is k b) = true -> k.(kname) = a \/ k.(kname) = b.
Proof.
  unfold key_is. intro H. apply orb_true_iff in H as [H|H];
    apply String.eqb_eq in H; auto.
Qed.

Lemma selected_key_practice st k idx :
  selected_key st k = SPractice idx ->
  key_is k "p" = true /\ idx = st.(selectedPanelIndex) /\
  exists it, js_get st.(selectedItems) idx = Some it /\ truthy_str it.(logId) = true.
Proof.
  unfold selected_key. intro H.
  repeat match type of H with
         | context [if ?b then _ else _] => let E := fresh "E" in destruct b eqn:E
         | context [match ?o with Some _ => _ | None => _ end] =>
             let E := fresh "E" in destruct o eqn:E
         end; try discriminate H.
  injection H as <-. split; [reflexivity|]. split; [reflexivity|]. eauto.
Qed.

Lemma practice_step_inv e idx m k now ok fetched library calls m' :
  (forall p, m.(practiceState) = Some p ->
     m.(editor) = e /\ p.(itemIndex) = idx /\ m.(appState) = Practicing) ->
  practice_key m k now ok fetched library = Some (calls, m') ->
  (forall p, m'.(practiceState) = Some p ->
     m'.(editor) = e /\ p.(itemIndex) = idx /\ m'.(appState) = Practicing).
Proof.
  intros I H. unfold practice_key in H.
  destruct m.(appState) eqn:A; try discriminate H.
  destruct m.(practiceState) as [p|] eqn:P; [|discriminate H].
  destruct (I p eq_refl) as (Ee & Ei & _). injection H as H.
  destruct p.(isConfirming) eqn:C.
  - destruct (key_is k "y").
    + unfold confirmSavePractice in H. rewrite P in H.
      destruct (js_get _ _) as [it|]; [|injection H as _ <-; discriminate].
      destruct (truthy_str it.(logId)); [|injection H as _ <-; discriminate].
      destruct ok; [destruct (truthy_str _)|]; injection H as _ <-; discriminate.
    + destruct (key_is k "n"); [|destruct (key_is k "escape")];
        injection H as _ <-; intros p' E.
      * unfold cancelConfirmPractice in E |- *. rewrite P in E |- *. injection E as <-.
        simpl. auto.
      * discriminate.
      * rewrite P in E. injection E as <-. auto.
  - destruct (key_is k "space"); [|destruct (key_is k "return"); [|destruct (key_is k "escape")]];
      injection H as _ <-; intros p' E.
    + unfold togglePausePractice in E |- *. rewrite P in E |- *. injection E as <-.
      unfold togglePause. destruct p.(isPaused); simpl; auto.
    + unfold requestStopPractice in E |- *. rewrite P in E |- *. injection E as <-.
      destruct (negb p.(isPaused)); simpl; auto.
    + discriminate.
    + rewrite P in E. injection E as <-. auto.
Qed.

Lemma practice_keys_inv e idx m ks ok fetched library calls m1 :
  (forall p, m.(practiceState) = Some p ->
     m.(editor) = e /\ p.(itemIndex) = idx /\ m.(appState) = Practicing) ->
  practice_keys m ks ok fetched library = (calls, m1) ->
  (forall p, m1.(practiceState) = Some p ->
     m1.(editor) = e /\ p.(itemIndex) = idx /\ m1.(appState) = Practicing).
Proof.
  revert m calls. induction ks as [|[k now] rest IH]; intros m calls I H; simpl in H.
  - injection H as _ <-. exact I.
  - destruct (practice_key m k now ok fetched library) as [[c m']|] eqn:S.
    + destruct (practice_keys m' rest ok fetched library) as [c' m''] eqn:R.
      injection H as _ <-. exact (IH m' c' (practice_step_inv _ _ _ _ _ _ _ _ _ _ I S) R).
    + injection H as _ <-. exact I.
Qed.

(** X5: in the selected pane, Escape, Tab, e, s and r are always taken by
    the app's global shortcuts and never reach the pane's handler.  So an
    Escape during a time edit moves the focus to the list without calling
    [cancelTimeEdit]: the handler's own Escape branch, which would cancel
    the edit, is unreachable. *)
Theorem selected_pane_global_keys :
  (forall k, dispatch_route FSelected k = RPane FSelected ->
     (k.(kname) <> "escape" /\ k.(kname) <> "tab" /\ k.(kname) <> "e" /\
      k.(kname) <> "s" /\ k.(kname) <> "r")%string) /\
  (forall st n ctrl shift,
     dispatch_route FSelected {| kname := "escape"; kctrl := ctrl; kshift := shift |} = RGlobal /\
     dispatch_focus FSelected n {| kname := "escape"; kctrl := ctrl; kshift := shift |} = FList /\
     (st.(isEditingTime) = true ->
      selected_key st {| kname := "escape"; kctrl := ctrl; kshift := shift |}
        = SEditor (cancelTimeEdit st))).
Proof.
  split.
  - intros [name ctrl shift] H. cbn [kname].
    repeat split; intro E; subst name; destruct ctrl; vm_compute in H; discriminate H.
  - intros st n ctrl shift. split; [destruct ctrl; reflexivity|].
    split; [destruct ctrl; reflexivity|].
    intro Ed. unfold selected_key. rewrite Ed. reflexivity.
Qed.

(** X6: while a time is being edited, every key other than Return that
    reaches the selected pane is consumed and changes neither the working
    set, the baseline nor the cursor, and the input stays at most three
    decimal digits. *)
Theorem time_edit_keys st k :
  st.(isEditingTime) = true -> time_buffer_ok st -> key_is k "return" = false ->
  exists st', selected_key st k = SEditor st' /\
    st'.(selectedItems) = st.(selectedItems) /\ st'.(originalItems) = st.(originalItems) /\
    st'.(selectedPanelIndex) = st.(selectedPanelIndex) /\ time_buffer_ok st'.
Proof.
  intros Ed Ok Hr. unfold selected_key. rewrite Ed, Hr.
  destruct (key_is k "escape").
  - eexists. split; [reflexivity|]. do 3 (split; [reflexivity|]). split; [reflexivity | simpl; lia].
  - destruct (key_is k "backspace").
    + eexists. split; [reflexivity|]. do 3 (split; [reflexivity|]).
      exact (time_key_ok st TBackspace Ok).
    + destruct (digit_regex k.(kname)).
      * eexists. split; [reflexivity|].
        pose proof (time_key_ok st (TDigit k.(kname)) Ok) as Hk. simpl in Hk.
        unfold appendTimeDigit in *. destruct (negb _); [repeat split; apply Hk|].
        destruct (_ <=? _)%nat; (do 3 (split; [reflexivity|])); exact Hk.
      * exists st. repeat split; apply Ok.
Qed.

Lemma time_edit_keys_witness :
  exists st', selected_key (startTimeEdit ex_three) {| kname := "x"; kctrl := false; kshift := false |}
                = SEditor st' /\
    st'.(selectedItems) = (startTimeEdit ex_three).(selectedItems) /\
    st'.(originalItems) = (startTimeEdit ex_three).(originalItems) /\
    st'.(selectedPanelIndex) = (startTimeEdit ex_three).(selectedPanelIndex) /\
    time_buffer_ok st'.
Proof.
  apply time_edit_keys; [reflexivity | split; [reflexivity | simpl; lia] | reflexivity].
Defined.

(** X7: Shift+K / Shift+J in the selected pane (not editing a time) call
    [moveItem] with the cursor as index, so the cursor keeps pointing at
    the same entry: after the move it is on the neighbour position when
    that lies inside the working set, and otherwise the working set and the
    cursor are unchanged. *)
Theorem selected_move_follows st k d it :
  st.(isEditingTime) = false -> k.(kshift) = true ->
  (d = Up /\ (key_is k "k" || key_is k "K") = true) \/
  (d = Down /\ (key_is k "j" || key_is k "J") = true) ->
  js_get st.(selectedItems) st.(selectedPanelIndex) = Some it ->
  exists items c,
    selected_key st k = SMoved items c /\
    List.length items = List.length st.(selectedItems) /\
    js_read items c = Some it /\
    (0 <= neighbour st.(selectedPanelIndex) d < Z.of_nat (List.length st.(selectedItems)) ->
     c = neighbour st.(selectedPanelIndex) d) /\
    (~ (0 <= neighbour st.(selectedPanelIndex) d < Z.of_nat (List.length st.(selectedItems))) ->
     c = st.(selectedPanelIndex) /\ items = map Some st.(selectedItems)).
Proof.
  intros Ed Sh Hd Hit.
  assert (Hsel : selected_key st k =
                 SMoved (moveItem_items st.(selectedItems) st.(selectedPanelIndex) d)
                        (moveItem_cursor (List.length st.(selectedItems)) st.(selectedPanelIndex) d)).
  { unfold selected_key. rewrite Ed, Sh. cbn [andb].
    destruct Hd as [[-> H]|[-> H]]; [rewrite H; reflexivity|].
    destruct (key_name_cases k _ _ H) as [E|E]; unfold key_is; rewrite E; reflexivity. }
  rewrite Hsel. do 2 eexists. split; [reflexivity|].
  destruct (js_get_some _ _ _ Hit) as [Hi Hn].
  assert (Hlt : st.(selectedPanelIndex) < Z.of_nat (List.length st.(selectedItems))).
  { assert (N : nth_error st.(selectedItems) (Z.to_nat st.(selectedPanelIndex)) <> None) by congruence.
    apply nth_error_Some in N. lia. }
  set (i := st.(selectedPanelIndex)) in *.
  destruct (Z_le_dec 0 (neighbour i d)) as [L1|L1];
    [destruct (Z_lt_dec (neighbour i d) (Z.of_nat (List.length st.(selectedItems)))) as [L2|L2]|].
  - destruct (moveItem_items_swap st.(selectedItems) i d) as [Hl Hk]; [lia | lia |].
    unfold moveItem_cursor.
    replace ((neighbour i d <? 0) || (Z.of_nat (List.length st.(selectedItems)) <=? neighbour i d))
      with false
      by (symmetry; apply orb_false_iff; split; [apply Z.ltb_ge | apply Z.leb_gt]; lia).
    split; [exact Hl|]. split.
    + unfold js_read, js_get. replace (neighbour i d <? 0) with false by (symmetry; apply Z.ltb_ge; lia).
      rewrite Hk, Nat.eqb_refl.
      replace (Nat.eqb (Z.to_nat (neighbour i d)) (Z.to_nat i)) with false
        by (symmetry; apply Nat.eqb_neq; pose proof (neighbour_ne i d); lia).
      rewrite Hn. reflexivity.
    + split; [reflexivity | intro C; exfalso; apply C; lia].
  - assert (B : ((neighbour i d <? 0) ||
                 (Z.of_nat (List.length st.(selectedItems)) <=? neighbour i d)) = true)
      by (apply orb_true_iff; right; apply Z.leb_le; lia).
    unfold moveItem_items, moveItem_cursor. cbv zeta. rewrite B.
    split; [apply length_map|]. split; [rewrite js_read_map by lia; exact Hn|].
    split; [lia | intros _; split; reflexivity].
  - assert (B : ((neighbour i d <? 0) ||
                 (Z.of_nat (List.length st.(selectedItems)) <=? neighbour i d)) = true)
      by (apply orb_true_iff; left; apply Z.ltb_lt; lia).
    unfold moveItem_items, moveItem_cursor. cbv zeta. rewrite B.
    split; [apply length_map|]. split; [rewrite js_read_map by lia; exact Hn|].
    split; [lia | intros _; split; reflexivity].
Qed.

Lemma selected_move_follows_witness :
  exists items c,
    selected_key ex_three {| kname := "J"; kctrl := false; kshift := true |} = SMoved items c /\
    List.length items = 3%nat /\
    js_read items c = Some (mk_sel lib_b 5 None) /\
    (0 <= 2 < 3 -> c = 2) /\
    (~ (0 <= 2 < 3) -> c = 1 /\ items = map Some ex_three.(selectedItems)).
Proof.
  apply (selected_move_follows ex_three {| kname := "J"; kctrl := false; kshift := true |} Down
           (mk_sel lib_b 5 None)); [reflexivity | reflexivity | right; split; reflexivity | reflexivity].
Defined.

(** X8: with an empty working set, j in the selected pane sets the cursor
    to -1; with the cursor at -1 and a non-empty working set, Shift+J
    overwrites the first entry with a hole (an [undefined] element) and
    puts the cursor on it. *)
Theorem selected_cursor_minus_one :
  (forall st k, st.(isEditingTime) = false -> st.(selectedItems) = [] ->
     k.(kshift) = false -> k.(kname) = "j"%string -> -2 <= st.(selectedPanelIndex) ->
     selected_key st k = SEditor (set_panel st (-1))) /\
  (forall st k x rest, st.(isEditingTime) = false -> st.(selectedPanelIndex) = -1 ->
     st.(selectedItems) = x :: rest -> k.(kshift) = true -> k.(kname) = "j"%string ->
     selected_key st k = SMoved (None :: map Some rest) 0).
Proof.
  split.
  - intros st [name ctrl shift] Ed Em Sh Nm Hc. cbn in Sh, Nm. subst shift name.
    unfold selected_key. rewrite Ed, Em. cbn -[Z.min].
    replace (Z.min (-1) (st.(selectedPanelIndex) + 1)) with (-1) by lia. reflexivity.
  - intros st [name ctrl shift] x rest Ed Hc Hs Sh Nm. cbn in Sh, Nm. subst shift name.
    unfold selected_key. rewrite Ed. cbn [andb kshift key_is kname].
    unfold moveItem, moveItem_items, moveItem_cursor. rewrite Hc, Hs. reflexivity.
Qed.

(** X9: a practice run started with p from the selected pane always runs
    on the entry under the cursor, which has a log id; whatever keys follow,
    as long as the run is still open the editor and the entry index are
    unchanged, so answering y at the confirmation prompt sends an update of
    exactly that log and closes the run. *)
Theorem practice_from_selected m0 st k idx now ks ok fetched library calls m1 p1 t :
  m0.(editor) = st ->
  selected_key st k = SPractice idx ->
  practice_keys (startPractice m0 idx now) ks ok fetched library = (calls, m1) ->
  m1.(practiceState) = Some p1 -> p1.(isConfirming) = true ->
  key_is k "p" = true /\ m1.(editor) = st /\ p1.(itemIndex) = st.(selectedPanelIndex) /\
  exists it upd rest m2,
    js_get st.(selectedItems) st.(selectedPanelIndex) = Some it /\ truthy_str it.(logId) = true /\
    practice_key m1 {| kname := "y"; kctrl := false; kshift := false |} t ok fetched library
      = Some (UpdateLog (ref_of it.(logId)) upd :: rest, m2) /\
    m2.(practiceState) = None.
Proof.
  intros Em Hs Hk Hp Hc.
  destruct (selected_key_practice _ _ _ Hs) as (Kp & -> & it & Hit & Ht).
  assert (I0 : forall p, (startPractice m0 st.(selectedPanelIndex) now).(practiceState) = Some p ->
            (startPractice m0 st.(selectedPanelIndex) now).(editor) = st /\
            p.(itemIndex) = st.(selectedPanelIndex) /\
            (startPractice m0 st.(selectedPanelIndex) now).(appState) = Practicing).
  { intros p E. simpl in E. injection E as <-. simpl. auto. }
  destruct (practice_keys_inv _ _ _ _ _ _ _ _ _ I0 Hk p1 Hp) as (E1 & Ei & Ea).
  split; [exact Kp|]. split; [exact E1|]. split; [exact Ei|].
  exists it. unfold practice_key. rewrite Ea, Hp, Hc. cbn [key_is kname].
  unfold confirmSavePractice. rewrite Hp, E1, Ei, Hit, Ht.
  destruct ok; [destruct (truthy_str st.(activeSessionId))|];
    do 3 eexists; (split; [reflexivity|]); (split; [reflexivity|]); split; reflexivity.
Qed.

Lemma practice_from_selected_witness :
  key_is {| kname := "p"; kctrl := false; kshift := false |} "p" = true /\
  ex_confirming.(editor) = ex_loaded /\ ex_confirming_state.(itemIndex) = ex_loaded.(selectedPanelIndex) /\
  exists it upd rest m2,
    js_get ex_loaded.(selectedItems) ex_loaded.(selectedPanelIndex) = Some it /\
    truthy_str it.(logId) = true /\
    practice_key ex_confirming {| kname := "y"; kctrl := false; kshift := false |} 2000
      true ex_fetched ex_library = Some (UpdateLog (ref_of it.(logId)) upd :: rest, m2) /\
    m2.(practiceState) = None.
Proof.
  apply (practice_from_selected {| editor := ex_loaded; practiceState := None; appState := Browse |}
           ex_loaded {| kname := "p"; kctrl := false; kshift := false |} 0 0
           [({| kname := "return"; kctrl := false; kshift := false |}, 1000)]
           true ex_fetched ex_library [] ex_confirming ex_confirming_state 2000); reflexivity.
Defined.

(** X10: choosing the first line of the session picker ("new session",
    cursor 0) with space or Return closes the picker and empties the
    working set, the baseline and the active session; a save right after
    (the s shortcut or [saveSession] itself) then writes nothing. *)
Theorem picker_new_session sessions st k fetched library today nsid fetched2 :
  st.(sessionCursorIndex) = 0 -> (key_is k "space" || key_is k "return") = true ->
  picker_key sessions st k fetched library = Some ([], clearSession st, true) /\
  (clearSession st).(selectedItems) = [] /\ (clearSession st).(originalItems) = [] /\
  (clearSession st).(activeSessionId) = None /\
  saveSession (clearSession st) today nsid fetched2 library = ([], clearSession st) /\
  save_shortcut (clearSession st) today nsid fetched2 library = ([], clearSession st).
Proof.
  intros Hc Hk. repeat split.
  unfold picker_key. destruct (key_name_cases _ _ _ Hk) as [E|E];
    unfold key_is; rewrite E, Hc; reflexivity.
Qed.

Lemma picker_new_session_witness :
  picker_key [] ex_loaded {| kname := "return"; kctrl := false; kshift := false |} [] ex_library
    = Some ([], clearSession ex_loaded, true) /\
  (clearSession ex_loaded).(selectedItems) = [] /\ (clearSession ex_loaded).(originalItems) = [] /\
  (clearSession ex_loaded).(activeSessionId) = None /\
  saveSession (clearSession ex_loaded) "2024-01-01" "s9" ex_fetched ex_library = ([], clearSession ex_loaded) /\
  save_shortcut (clearSession ex_loaded) "2024-01-01" "s9" ex_fetched ex_library = ([], clearSession ex_loaded).
Proof.
  apply picker_new_session; reflexivity.
Defined.

(** X11: the session picker keeps its cursor within 0 .. the number of
    sessions and never writes to the store; with the cursor on a session
    line (cursor c > 0), space or Return fetches the logs of session c-1,
    which exists, makes it the active session and replaces the working set
    and the baseline by the entries built from its logs. *)
Theorem picker_key_spec sessions st k fetched library :
  0 <= st.(sessionCursorIndex) <= Z.of_nat (List.length sessions) ->
  (forall calls st' close, picker_key sessions st k fetched library = Some (calls, st', close) ->
     0 <= st'.(sessionCursorIndex) <= Z.of_nat (List.length sessions) /\
     Forall (fun c => is_write c = false) calls) /\
  ((key_is k "space" || key_is k "return") = true -> 0 < st.(sessionCursorIndex) ->
   exists s, js_get sessions (st.(sessionCursorIndex) - 1) = Some s /\
     picker_key sessions st k fetched library =
       Some ([FetchLogs s.(ps_id)], loadSessionLogs (selectSession st (Some s.(ps_id))) fetched library, true) /\
     (loadSessionLogs (selectSession st (Some s.(ps_id))) fetched library).(activeSessionId) = Some s.(ps_id) /\
     (loadSessionLogs (selectSession st (Some s.(ps_id))) fetched library).(selectedItems)
       = build_items library fetched /\
     (loadSessionLogs (selectSession st (Some s.(ps_id))) fetched library).(originalItems)
       = build_items library fetched).
Proof.
  intros Hr.
  assert (Hget : 0 < st.(sessionCursorIndex) ->
                 exists s, js_get sessions (st.(sessionCursorIndex) - 1) = Some s).
  { intro Hp. unfold js_get.
    replace (st.(sessionCursorIndex) - 1 <? 0) with false by (symmetry; apply Z.ltb_ge; lia).
    destruct (nth_error sessions (Z.to_nat (st.(sessionCursorIndex) - 1))) as [s|] eqn:N; [eauto|].
    apply nth_error_None in N. lia. }
  split.
  - intros calls st' close H. unfold picker_key in H.
    destruct (key_is k "up" || key_is k "k");
      [injection H as <- <- _; simpl; split; [lia | constructor]|].
    destruct (key_is k "down" || key_is k "j");
      [injection H as <- <- _; simpl; split; [lia | constructor]|].
    destruct (key_is k "space" || key_is k "return").
    + destruct (sessionCursorIndex st =? 0).
      * injection H as <- <- _. simpl. split; [lia | constructor].
      * destruct (js_get sessions _) as [s|].
        -- injection H as <- <- _. simpl. split; [lia | repeat constructor].
        -- injection H as <- <- _. split; [lia | constructor].
    + destruct (key_is k "escape"); [|discriminate H].
      injection H as <- <- _. split; [lia | constructor].
  - intros Hk Hp. destruct (Hget Hp) as [s Hs]. exists s. split; [exact Hs|].
    split; [|repeat split].
    unfold picker_key. destruct (key_name_cases _ _ _ Hk) as [E|E];
      unfold key_is; rewrite E; cbn -[js_get];
      (replace (sessionCursorIndex st =? 0) with false by (symmetry; apply Z.eqb_neq; lia));
      rewrite Hs; reflexivity.
Qed.

Lemma picker_key_spec_witness :
  (forall calls st' close,
     picker_key [ex_session] ex_picker {| kname := "return"; kctrl := false; kshift := false |}
       ex_fetched ex_library = Some (calls, st', close) ->
     0 <= st'.(sessionCursorIndex) <= 1 /\ Forall (fun c => is_write c = false) calls) /\
  ((key_is {| kname := "return"; kctrl := false; kshift := false |} "space" ||
    key_is {| kname := "return"; kctrl := false; kshift := false |} "return") = true ->
   0 < ex_picker.(sessionCursorIndex) ->
   exists s, js_get [ex_session] (ex_picker.(sessionCursorIndex) - 1) = Some s /\
     picker_key [ex_session] ex_picker {| kname := "return"; kctrl := false; kshift := false |}
       ex_fetched ex_library =
       Some ([FetchLogs s.(ps_id)], loadSessionLogs (selectSession ex_picker (Some s.(ps_id))) ex_fetched ex_library, true) /\
     (loadSessionLogs (selectSession ex_picker (Some s.(ps_id))) ex_fetched ex_library).(activeSessionId) = Some s.(ps_id) /\
     (loadSessionLogs (selectSession ex_picker (Some s.(ps_id))) ex_fetched ex_library).(selectedItems)
       = build_items ex_library ex_fetched /\
     (loadSessionLogs (selectSession ex_picker (Some s.(ps_id))) ex_fetched ex_library).(originalItems)
       = build_items ex_library ex_fetched).
Proof.
  apply picker_key_spec. simpl. lia.
Defined.

(** X12: the picker draws only the first ten sessions, but its cursor goes
    up to the number of sessions: with more than ten, Down on the last
    drawn line moves the cursor to line 11, which no line shows as the
    cursor. *)
Theorem picker_cursor_beyond_drawn sessions st k fetched library :
  (10 < List.length sessions)%nat -> st.(sessionCursorIndex) = 10 ->
  (key_is k "down" || key_is k "j") = true ->
  picker_key sessions st k fetched library = Some ([], set_session_cursor st 11, false) /\
  picker_drawn sessions 10 = true /\ picker_drawn sessions 11 = false.
Proof.
  intros Hl Hc Hk.
  assert (F : List.length (firstn 10 sessions) = 10%nat) by (rewrite length_firstn; lia).
  split; [|unfold picker_drawn; rewrite F; split; reflexivity].
  unfold picker_key. rewrite Hc.
  replace (Z.min (Z.of_nat (List.length sessions)) (10 + 1)) with 11 by lia.
  destruct (key_name_cases _ _ _ Hk) as [E|E]; unfold key_is; rewrite E; reflexivity.
Qed.

Lemma picker_cursor_beyond_drawn_witness :
  picker_key ex_many_sessions (set_session_cursor ex_loaded 10)
    {| kname := "down"; kctrl := false; kshift := false |} [] ex_library
    = Some ([], set_session_cursor (set_session_cursor ex_loaded 10) 11, false) /\
  picker_drawn ex_many_sessions 10 = true /\ picker_drawn ex_many_sessions 11 = false.
Proof.
  apply picker_cursor_beyond_drawn; simpl; lia || reflexivity.
Defined.

(** X13: with an empty working set the s shortcut saves nothing, even when
    a session is active: [saveSession] itself would then delete every
    persisted log of the baseline. *)
Theorem save_shortcut_empty st today nsid fetched library :
  st.(selectedItems) = [] ->
  save_shortcut st today nsid fetched library = ([], st) /\
  (truthy_str st.(activeSessionId) = true ->
   forall o, In o st.(originalItems) -> truthy_str o.(logId) = true ->
   In (DeleteLog (ref_of o.(logId))) (fst (saveSession st today nsid fetched library))).
Proof.
  intros He. split.
  - unfold save_shortcut. rewrite He. reflexivity.
  - intros Ha o Ho Ht. rewrite saveSession_active by exact Ha.
    apply in_or_app. left. unfold save_edit. apply in_or_app. left.
    apply in_delete_removed_intro; [exact Ho | exact Ht|].
    rewrite He. reflexivity.
Qed.

Lemma save_shortcut_empty_witness :
  save_shortcut ex_emptied "2024-01-02" "s9" ex_fetched ex_library = ([], ex_emptied) /\
  (truthy_str ex_emptied.(activeSessionId) = true ->
   forall o, In o ex_emptied.(originalItems) -> truthy_str o.(logId) = true ->
   In (DeleteLog (ref_of o.(logId))) (fst (saveSession ex_emptied "2024-01-02" "s9" ex_fetched ex_library))).
Proof.
  apply save_shortcut_empty. reflexivity.
Defined.

(** X14: the focus reaches the selected pane only from itself when the
    working set is empty, and reaches the session picker only from itself
    or with e from the library list or the selected pane. *)
Theorem focus_invariants f n k :
  (dispatch_focus f 0 k = FSelected -> f = FSelected) /\
  (dispatch_focus f n k = FSessionPicker ->
   f = FSessionPicker \/ (k.(kname) = "e"%string /\ (f = FList \/ f = FSelected))).
Proof.
  unfold dispatch_focus, library_focus, picker_focus.
  split; intro H; destruct f; auto;
    repeat match type of H with
           | context [if ?b then _ else _] => let E := fresh "E" in destruct b eqn:E
           end; try discriminate H;
    repeat match goal with
           | E : _ && _ = true |- _ => apply andb_true_iff in E as [E ?]
           end;
    try (exfalso; match goal with E : _ = true |- _ => simpl in E; discriminate E end);
    right; (split; [|auto]);
    unfold key_is in *; apply String.eqb_eq; assumption.
Qed.

(** ** The practice screen *)

(** X15: during a running practice run, Return at [t1] stops the clock and
    asks for confirmation.  Answering y at any later time saves exactly the
    time run up to [t1] (in minutes) into the entry's log and ends the run.
    Answering n and resuming with space at [t3] restarts the clock at [t3],
    so the time spent at the prompt is not counted. *)
Theorem practice_stop_keys m p t1 t2 t3 ok fetched library :
  m.(appState) = Practicing -> m.(practiceState) = Some p ->
  p.(isPaused) = false -> p.(isConfirming) = false ->
  (forall it, js_get m.(editor).(selectedItems) p.(itemIndex) = Some it ->
     truthy_str it.(logId) = true ->
     exists rest m',
       practice_keys m [({| kname := "return"; kctrl := false; kshift := false |}, t1);
                        ({| kname := "y"; kctrl := false; kshift := false |}, t2)] ok fetched library
       = (UpdateLog (ref_of it.(logId))
            {| up_plannedTime := None; up_order := None;
               up_actualTime := Some ((p.(accumulatedMs) + inject_Z (t1 - p.(startTime)))
                                      / inject_Z 60000)%Q |} :: rest, m') /\
       m'.(practiceState) = None) /\
  practice_keys m [({| kname := "return"; kctrl := false; kshift := false |}, t1);
                   ({| kname := "n"; kctrl := false; kshift := false |}, t2);
                   ({| kname := "space"; kctrl := false; kshift := false |}, t3)] ok fetched library
  = ([], {| editor := m.(editor);
            practiceState := Some {| itemIndex := p.(itemIndex); startTime := t3;
                                     accumulatedMs := (p.(accumulatedMs) + inject_Z (t1 - p.(startTime)))%Q;
                                     isPaused := false; isConfirming := false |};
            appState := Practicing |}).
Proof.
  intros Ha Hp Hu Hc.
  unfold practice_keys, practice_key, requestStopPractice, confirmSavePractice,
    cancelConfirmPractice, togglePausePractice.
  rewrite Ha, Hp, Hc. cbn -[js_get truthy_str]. rewrite ?Hp, ?Hu, ?Ha. cbn -[js_get truthy_str].
  split.
  - intros it Hit Ht. rewrite Hit, Ht.
    destruct ok; [destruct (truthy_str m.(editor).(activeSessionId))|];
      do 2 eexists; split; reflexivity.
  - reflexivity.
Qed.

Lemma practice_stop_keys_witness :
  (forall it, js_get ex_loaded.(selectedItems) 0 = Some it ->
     truthy_str it.(logId) = true ->
     exists rest m',
       practice_keys (startPractice {| editor := ex_loaded; practiceState := None; appState := Browse |} 0 0)
         [({| kname := "return"; kctrl := false; kshift := false |}, 1000);
          ({| kname := "y"; kctrl := false; kshift := false |}, 5000)] true ex_fetched ex_library
       = (UpdateLog (ref_of it.(logId))
            {| up_plannedTime := None; up_order := None;
               up_actualTime := Some ((0 + inject_Z (1000 - 0)) / inject_Z 60000)%Q |} :: rest, m') /\
       m'.(practiceState) = None) /\
  practice_keys (startPractice {| editor := ex_loaded; practiceState := None; appState := Browse |} 0 0)
    [({| kname := "return"; kctrl := false; kshift := false |}, 1000);
     ({| kname := "n"; kctrl := false; kshift := false |}, 5000);
     ({| kname := "space"; kctrl := false; kshift := false |}, 9000)] true ex_fetched ex_library
  = ([], {| editor := ex_loaded;
            practiceState := Some {| itemIndex := 0; startTime := 9000;
                                     accumulatedMs := (0 + inject_Z (1000 - 0))%Q;
                                     isPaused := false; isConfirming := false |};
            appState := Practicing |}).
Proof.
  exact (practice_stop_keys
           (startPractice {| editor := ex_loaded; practiceState := None; appState := Browse |} 0 0)
           {| itemIndex := 0; startTime := 0;
              accumulatedMs := existing_ms (js_get ex_loaded.(selectedItems) 0);
              isPaused := false; isConfirming := false |}
           1000 5000 9000 true ex_fetched ex_library eq_refl eq_refl eq_refl eq_refl).
Defined.

(** ** The library pane *)

(** X18: for a cursor inside the library list, the scroll window of
    [LibraryPane] starts at 0 or later, contains the cursor, shows
    [min 15 length] items, and keeps at least [SCROLL_PADDING] items below
    the cursor unless it already reaches the end of the list. *)
Theorem library_window c len :
  0 <= c < Z.of_nat len ->
  0 <= windowStart c len /\ windowStart c len <= c < windowEnd c len /\
  windowEnd c len - windowStart c len = Z.min VISIBLE_COUNT (Z.of_nat len) /\
  (c + SCROLL_PADDING < windowEnd c len \/ windowEnd c len = Z.of_nat len).
Proof.
  intro Hc. unfold windowEnd, windowStart, VISIBLE_COUNT, SCROLL_PADDING.
  destruct (15 - 3 - 1 <? c) eqn:E; [apply Z.ltb_lt in E | apply Z.ltb_ge in E]; lia.
Qed.

Lemma library_window_witness :
  0 <= windowStart 20 30 /\ windowStart 20 30 <= 20 < windowEnd 20 30 /\
  windowEnd 20 30 - windowStart 20 30 = Z.min VISIBLE_COUNT (Z.of_nat 30) /\
  (20 + SCROLL_PADDING < windowEnd 20 30 \/ windowEnd 20 30 = Z.of_nat 30).
Proof.
  apply library_window. lia.
Defined.

(** X19: on a non-empty filtered list, every key of the library handler
    other than the type-filter key f keeps a cursor that points into the
    list inside it (the sort keys 1, 2 and 3 reorder the list and put the
    cursor on its first item; f changes the list itself, so it is left
    out).  On an empty list, Down, j or Ctrl+f move a cursor at 0 or
    later to -1. *)
Theorem library_cursor_range :
  (forall len i k, (0 < len)%nat -> 0 <= i < Z.of_nat len ->
     (k.(kctrl) = true \/ k.(kname) <> "f"%string) ->
     0 <= library_cursor len i k < Z.of_nat len) /\
  (forall i k, 0 <= i ->
     (key_is k "down" || key_is k "j" || (k.(kctrl) && key_is k "f")) = true ->
     library_cursor 0 i k = -1).
Proof.
  split.
  - intros len i k Hl Hi _. unfold library_cursor.
    repeat match goal with
           | |- context [if ?b then _ else _] => destruct b
           end; lia.
  - intros i [name ctrl shift] Hi Hk. unfold library_cursor, key_is in *. cbn [kname kctrl] in *.
    destruct ctrl, (name =? "f")%string eqn:F; cbn [andb] in *.
    + lia.
    + destruct (name =? "b")%string eqn:B.
      * apply String.eqb_eq in B. subst name. discriminate Hk.
      * rewrite !orb_false_r in Hk.
        destruct (name =? "up")%string eqn:U;
          [apply String.eqb_eq in U; subst name; discriminate Hk|].
        destruct (name =? "k")%string eqn:K;
          [apply String.eqb_eq in K; subst name; discriminate Hk|].
        cbn [orb]. rewrite Hk. lia.
    + apply String.eqb_eq in F. subst name. discriminate Hk.
    + rewrite !orb_false_r in Hk.
      destruct (name =? "up")%string eqn:U;
        [apply String.eqb_eq in U; subst name; discriminate Hk|].
      destruct (name =? "k")%string eqn:K;
        [apply String.eqb_eq in K; subst name; discriminate Hk|].
      cbn [orb]. rewrite Hk. lia.
Qed.
